(** * The chat todo-list widget (chatTodoListWidget.ts)

    A shallow embedding of [ChatTodoListWidget]: the DOM it builds and
    mutates, its view state, the per-session todo storage it reads and
    writes, and the height-change emitter.  Methods are programs of a small
    state monad over the widget; the collaborators that live outside the
    file (localisation, the button control, the browser's layout) are the
    members of the [Host] class. *)

From Stdlib Require Import ZArith Ascii String DecimalString DecimalNat.
From stdpp Require Import gmap strings list.

Local Open Scope string_scope.

(** ** DOM values *)

(** [element.style]: the two properties the widget assigns.  The empty
    string is the unset value. *)
Record CSSStyleDeclaration := mkStyle {
  display : string;
  color : string
}.

Definition set_display (v : string) (s : CSSStyleDeclaration) :=
  {| display := v; color := color s |}.
Definition set_color (v : string) (s : CSSStyleDeclaration) :=
  {| display := display s; color := v |}.

(** A node is a text node or an element; an element carries its class
    list (in token order), its attributes (in insertion order), its inline
    style and its children. *)
Inductive Node : Type :=
  | TextNode (data : string)
  | ElementNode (element : HTMLElement)
with HTMLElement : Type :=
  | mkElement (classList : list string)
              (attributes : list (string * string))
              (style : CSSStyleDeclaration)
              (childNodes : list Node).

Definition classList (e : HTMLElement) : list string :=
  match e with mkElement c _ _ _ => c end.
Definition attributes (e : HTMLElement) : list (string * string) :=
  match e with mkElement _ a _ _ => a end.
Definition style (e : HTMLElement) : CSSStyleDeclaration :=
  match e with mkElement _ _ s _ => s end.
Definition childNodes (e : HTMLElement) : list Node :=
  match e with mkElement _ _ _ n => n end.

Definition set_classList (c : list string) (e : HTMLElement) :=
  mkElement c (attributes e) (style e) (childNodes e).
Definition set_attributes (a : list (string * string)) (e : HTMLElement) :=
  mkElement (classList e) a (style e) (childNodes e).
Definition set_style (s : CSSStyleDeclaration) (e : HTMLElement) :=
  mkElement (classList e) (attributes e) s (childNodes e).
Definition set_childNodes (n : list Node) (e : HTMLElement) :=
  mkElement (classList e) (attributes e) (style e) n.

(** [e.style.display = v] and [e.style.color = v]. *)
Definition style_display_set (v : string) (e : HTMLElement) : HTMLElement :=
  set_style (set_display v (style e)) e.
Definition style_color_set (v : string) (e : HTMLElement) : HTMLElement :=
  set_style (set_color v (style e)) e.

(** [e.classList.add(token)]: appended unless already present. *)
Definition classList_add (token : string) (e : HTMLElement) : HTMLElement :=
  if bool_decide (token ∈ classList e) then e
  else set_classList (classList e ++ [token]) e.

(** [e.classList.remove(token)]. *)
Definition classList_remove (token : string) (e : HTMLElement) : HTMLElement :=
  set_classList (filter (λ c, c ≠ token) (classList e)) e.

(** [e.classList.toggle(token, force)] with the force argument given. *)
Definition classList_toggle (token : string) (force : bool) (e : HTMLElement)
  : HTMLElement :=
  if force then classList_add token e else classList_remove token e.

(** [e.setAttribute(name, value)]: an existing attribute keeps its place. *)
Fixpoint attr_update (name value : string) (a : list (string * string))
  : list (string * string) :=
  match a with
  | [] => [(name, value)]
  | (n, v) :: a' =>
      if String.eqb n name then (n, value) :: a'
      else (n, v) :: attr_update name value a'
  end.

Definition setAttribute (name value : string) (e : HTMLElement) : HTMLElement :=
  set_attributes (attr_update name value (attributes e)) e.

Fixpoint attr_lookup (name : string) (a : list (string * string))
  : option string :=
  match a with
  | [] => None
  | (n, v) :: a' => if String.eqb n name then Some v else attr_lookup name a'
  end.

Definition getAttribute (name : string) (e : HTMLElement) : option string :=
  attr_lookup name (attributes e).

(** [e.textContent = s]: every child is dropped; a non-empty string becomes
    the single text child. *)
Definition textContent_set (s : string) (e : HTMLElement) : HTMLElement :=
  set_childNodes (if String.eqb s "" then [] else [TextNode s]) e.

(** [e.textContent]: the text of all descendants, in document order. *)
Fixpoint textContent (e : HTMLElement) : string :=
  match e with
  | mkElement _ _ _ ns =>
      (fix go (ns : list Node) : string :=
         match ns with
         | [] => ""
         | TextNode d :: ns' => d +:+ go ns'
         | ElementNode c :: ns' => textContent c +:+ go ns'
         end) ns
  end.

(** [parent.appendChild(child)] for a child that has no parent yet. *)
Definition appendChild (child : HTMLElement) (parent : HTMLElement)
  : HTMLElement :=
  set_childNodes (childNodes parent ++ [ElementNode child]) parent.

(** The class names of a selector of the form [.a.b]. *)
Fixpoint split_classes (selector : string) (current : string) : list string :=
  match selector with
  | EmptyString => [current]
  | String c rest =>
      if Ascii.eqb c "."%char then current :: split_classes rest ""
      else split_classes rest (current +:+ String c "")
  end.

Definition selector_classes (selector : string) : list string :=
  filter (λ c, c ≠ "") (split_classes selector "").

Definition matches (selector : string) (e : HTMLElement) : bool :=
  forallb (λ c, bool_decide (c ∈ classList e)) (selector_classes selector).

(** [e.querySelector(selector)]: the first descendant of [e], in document
    order, that matches. *)
Fixpoint querySelector (selector : string) (e : HTMLElement)
  : option HTMLElement :=
  match e with
  | mkElement _ _ _ ns =>
      (fix go (ns : list Node) : option HTMLElement :=
         match ns with
         | [] => None
         | TextNode _ :: ns' => go ns'
         | ElementNode c :: ns' =>
             if matches selector c then Some c
             else match querySelector selector c with
                  | Some found => Some found
                  | None => go ns'
                  end
         end) ns
  end.

(** [const x = e.querySelector(selector); if (x) { update x }]: the element
    found is a reference into [e], so the update shows in [e]; [None] when
    nothing matches. *)
Fixpoint querySelector_update (selector : string)
    (update : HTMLElement → HTMLElement) (e : HTMLElement)
  : option HTMLElement :=
  match e with
  | mkElement cl at_ st ns =>
      option_map (mkElement cl at_ st)
        ((fix go (ns : list Node) : option (list Node) :=
            match ns with
            | [] => None
            | TextNode d :: ns' => option_map (cons (TextNode d)) (go ns')
            | ElementNode c :: ns' =>
                if matches selector c then Some (ElementNode (update c) :: ns')
                else match querySelector_update selector update c with
                     | Some c' => Some (ElementNode c' :: ns')
                     | None => option_map (cons (ElementNode c)) (go ns')
                     end
            end) ns)
  end.

Definition with_querySelector (selector : string)
    (update : HTMLElement → HTMLElement) (e : HTMLElement) : HTMLElement :=
  match querySelector_update selector update e with
  | Some e' => e'
  | None => e
  end.

Module dom.
(** Modelled from the spec: [dom.$(selector)] of base/browser/dom.js, the
    DOM node creation of section 1, for the selectors this file passes
    (class names only): a new element with those classes, no attribute,
    no inline style and no child. *)
Definition dollar (selector : string) : HTMLElement :=
  mkElement (selector_classes selector) [] (mkStyle "" "") [].
End dom.

(** ** JavaScript values *)

(** [!!x] for [x : string | undefined]: the empty string and [undefined]
    are falsy. *)
Definition ToBoolean (x : option string) : bool :=
  match x with
  | None => false
  | Some s => negb (String.eqb s "")
  end.

(** [b.toString()]. *)
Definition Boolean_toString (b : bool) : string :=
  if b then "true" else "false".

(** A non-negative integer inside a template literal: its decimal digits. *)
Definition Number_toString (n : nat) : string :=
  NilEmpty.string_of_uint (Nat.to_uint n).

(** ** Collaborators outside the file *)

(** Modelled from the spec: the todo record of common/chatTodoListService.js
    (section 3, TodoRecord), a title and a status.  The status is kept as
    the string the widget's two mappings receive. *)
Record IChatTodo := mkTodo {
  title : string;
  status : string
}.

(** Modelled from the spec: the storage adapter of section 6, keyed by
    session identifier.  [getTodoList] answers the empty sequence for a
    session without stored todos and [setTodoList] replaces the whole
    list. *)
Definition getTodoList (storage : gmap string (list IChatTodo))
    (sessionId : string) : list IChatTodo :=
  default [] (storage !! sessionId).

Definition setTodoList (sessionId : string) (todoList : list IChatTodo)
    (storage : gmap string (list IChatTodo)) : gmap string (list IChatTodo) :=
  <[sessionId := todoList]> storage.

(** Modelled from the spec: the collaborators of section 1 that are left
    open.  [localize] of nls.js; the element that the [Button] control of
    base/browser/ui/button/button.js puts into the container it is given,
    as [createClearButton] leaves it (tab index and icon set); and the
    border-box height the browser measures for a root element
    ([offsetHeight]). *)
Class Host := {
  localize : string → string → string;
  clearButton_element : HTMLElement;
  offsetHeight : HTMLElement → Z
}.

(** ** The widget *)

(** The elements the widget keeps a reference to are stored by value: each
    has one parent, fixed by [createChatTodoWidget], and [domNode]
    reassembles the tree from them.  [_onDidChangeHeight] is the emitter,
    kept as what its listeners were shown: the root node at every [fire()],
    oldest first. *)
Record ChatTodoListWidget := mkWidget {
  domNode_style : CSSStyleDeclaration;
  _onDidChangeHeight : list HTMLElement;
  _isExpanded : bool;
  expandoElement : HTMLElement;
  todoListContainer : HTMLElement;
  clearButtonContainer : HTMLElement;
  _currentSessionId : option string;
  chatTodoListService : gmap string (list IChatTodo)
}.

Definition headerContainer (this : ChatTodoListWidget) : HTMLElement :=
  appendChild (clearButtonContainer this)
    (appendChild (expandoElement this) (dom.dollar ".todo-list-header")).

Definition domNode (this : ChatTodoListWidget) : HTMLElement :=
  appendChild (todoListContainer this)
    (appendChild (headerContainer this)
       (set_style (domNode_style this) (dom.dollar ".chat-todo-list-widget"))).

Definition set_domNode_style v (w : ChatTodoListWidget) :=
  mkWidget v (_onDidChangeHeight w) (_isExpanded w) (expandoElement w)
    (todoListContainer w) (clearButtonContainer w) (_currentSessionId w)
    (chatTodoListService w).
Definition set__onDidChangeHeight v (w : ChatTodoListWidget) :=
  mkWidget (domNode_style w) v (_isExpanded w) (expandoElement w)
    (todoListContainer w) (clearButtonContainer w) (_currentSessionId w)
    (chatTodoListService w).
Definition set__isExpanded v (w : ChatTodoListWidget) :=
  mkWidget (domNode_style w) (_onDidChangeHeight w) v (expandoElement w)
    (todoListContainer w) (clearButtonContainer w) (_currentSessionId w)
    (chatTodoListService w).
Definition set_expandoElement v (w : ChatTodoListWidget) :=
  mkWidget (domNode_style w) (_onDidChangeHeight w) (_isExpanded w) v
    (todoListContainer w) (clearButtonContainer w) (_currentSessionId w)
    (chatTodoListService w).
Definition set_todoListContainer v (w : ChatTodoListWidget) :=
  mkWidget (domNode_style w) (_onDidChangeHeight w) (_isExpanded w)
    (expandoElement w) v (clearButtonContainer w) (_currentSessionId w)
    (chatTodoListService w).
Definition set_clearButtonContainer v (w : ChatTodoListWidget) :=
  mkWidget (domNode_style w) (_onDidChangeHeight w) (_isExpanded w)
    (expandoElement w) (todoListContainer w) v (_currentSessionId w)
    (chatTodoListService w).
Definition set__currentSessionId v (w : ChatTodoListWidget) :=
  mkWidget (domNode_style w) (_onDidChangeHeight w) (_isExpanded w)
    (expandoElement w) (todoListContainer w) (clearButtonContainer w) v
    (chatTodoListService w).
Definition set_chatTodoListService v (w : ChatTodoListWidget) :=
  mkWidget (domNode_style w) (_onDidChangeHeight w) (_isExpanded w)
    (expandoElement w) (todoListContainer w) (clearButtonContainer w)
    (_currentSessionId w) v.

(** ** Methods as state-passing programs *)

(** A method body: it reads and updates [this] and returns a value. *)
Definition M (A : Type) : Type :=
  ChatTodoListWidget → A * ChatTodoListWidget.

#[export] Instance M_ret : MRet M := λ A a this, (a, this).
#[export] Instance M_bind : MBind M :=
  λ A B f m this, let (a, this') := m this in f a this'.

Definition gets {A} (field : ChatTodoListWidget → A) : M A :=
  λ this, (field this, this).
Definition modify (f : ChatTodoListWidget → ChatTodoListWidget) : M () :=
  λ this, ((), f this).

(** The state a method call leaves, and the value it returns. *)
Definition exec {A} (m : M A) (this : ChatTodoListWidget)
  : ChatTodoListWidget := snd (m this).
Definition eval {A} (m : M A) (this : ChatTodoListWidget) : A :=
  fst (m this).

(** [array.forEach((x, index) => body)]. *)
Fixpoint forEach_from {A} (body : A → nat → M ()) (index : nat) (l : list A)
  : M () :=
  match l with
  | [] => mret ()
  | x :: l' => body x index ;; forEach_from body (S index) l'
  end.

Definition forEach {A} (l : list A) (body : A → nat → M ()) : M () :=
  forEach_from body 0 l.

(** Modelled from the spec: [this._onDidChangeHeight.fire()] of
    base/common/event.js, synchronous and in order (section 5): the
    listeners run now and see the root node as it is. *)
Definition fire : M () :=
  modify (λ this,
    set__onDidChangeHeight (_onDidChangeHeight this ++ [domNode this]) this).

Definition getStatusIconClass (status : string) : string :=
  if String.eqb status "completed" then "codicon-check"
  else if String.eqb status "in-progress" then "codicon-record"
  else if String.eqb status "not-started" then "codicon-circle-large-outline"
  else "codicon-circle-large-outline".

Definition getStatusIconColor (status : string) : string :=
  if String.eqb status "completed" then "var(--vscode-charts-green)"
  else if String.eqb status "in-progress" then "var(--vscode-charts-blue)"
  else if String.eqb status "not-started" then "var(--vscode-foreground)"
  else "var(--vscode-foreground)".

Section Widget.
Context `{Host}.

Definition renderTodoList (todoList : list IChatTodo) : M () :=
  modify (λ this,
    set_todoListContainer (textContent_set "" (todoListContainer this)) this) ;;
  (* titleElement = expandoElement.querySelector(...); if (titleElement) ... *)
  modify (λ this,
    set_expandoElement
      (with_querySelector ".todo-list-title"
         (textContent_set (localize "chat.todoList.title" "Tasks"))
         (expandoElement this)) this) ;;
  forEach todoList (λ todo index,
    let todoElement := dom.dollar ".todo-item" in
    let statusIcon := dom.dollar ".todo-status-icon.codicon" in
    let statusIcon := classList_add (getStatusIconClass (status todo)) statusIcon in
    let statusIcon := style_color_set (getStatusIconColor (status todo)) statusIcon in
    let todoContent := dom.dollar ".todo-content" in
    let titleElement := dom.dollar ".todo-title" in
    let titleElement :=
      textContent_set (Number_toString (index + 1) +:+ ". " +:+ title todo)
        titleElement in
    let todoContent := appendChild titleElement todoContent in
    let todoElement := appendChild statusIcon todoElement in
    let todoElement := appendChild todoContent todoElement in
    modify (λ this,
      set_todoListContainer
        (appendChild todoElement (todoListContainer this)) this)).

Definition updateTodoDisplay : M () :=
  sessionId ← gets _currentSessionId ;
  if negb (ToBoolean sessionId) then
    modify (λ this, set_domNode_style (set_display "none" (domNode_style this)) this) ;;
    modify (λ this,
      set_clearButtonContainer
        (style_display_set "none" (clearButtonContainer this)) this) ;;
    fire
  else
    todoListStorage ← gets chatTodoListService ;
    let todoList := getTodoList todoListStorage (default "" sessionId) in
    (if bool_decide (0 < length todoList) then
       renderTodoList todoList ;;
       modify (λ this,
         set_domNode_style (set_display "block" (domNode_style this)) this) ;;
       modify (λ this,
         set_clearButtonContainer
           (style_display_set "flex" (clearButtonContainer this)) this)
     else
       modify (λ this,
         set_domNode_style (set_display "none" (domNode_style this)) this) ;;
       modify (λ this,
         set_clearButtonContainer
           (style_display_set "none" (clearButtonContainer this)) this)) ;;
    fire.

Definition updateSessionId (sessionId : option string) : M () :=
  modify (set__currentSessionId sessionId) ;;
  updateTodoDisplay.

Definition toggleExpanded : M () :=
  modify (λ this, set__isExpanded (negb (_isExpanded this)) this) ;;
  (* expandIcon = expandoElement.querySelector(...); if (expandIcon) ... *)
  modify (λ this,
    set_expandoElement
      (with_querySelector ".expand-icon"
         (λ expandIcon,
            classList_toggle "codicon-chevron-right" (negb (_isExpanded this))
              (classList_toggle "codicon-chevron-down" (_isExpanded this)
                 expandIcon))
         (expandoElement this)) this) ;;
  modify (λ this,
    set_expandoElement
      (setAttribute "aria-expanded" (Boolean_toString (_isExpanded this))
         (expandoElement this)) this) ;;
  modify (λ this,
    set_todoListContainer
      (style_display_set (if _isExpanded this then "block" else "none")
         (todoListContainer this)) this) ;;
  fire.

Definition clearAllTodos : M () :=
  sessionId ← gets _currentSessionId ;
  if negb (ToBoolean sessionId) then
    mret ()
  else
    modify (λ this,
      set_chatTodoListService
        (setTodoList (default "" sessionId) [] (chatTodoListService this))
        this) ;;
    updateTodoDisplay.

(** [get height()]. *)
Definition height : M Z :=
  rootDisplay ← gets (λ this, display (domNode_style this)) ;
  if String.eqb rootDisplay "none" then mret 0%Z
  else gets (λ this, offsetHeight (domNode this)).

(** [createClearButton]: the button control adds its element to the
    container it is given; its click listener is [clearAllTodos]. *)
Definition createClearButton (container : HTMLElement) : HTMLElement :=
  appendChild clearButton_element container.

(** The constructor, with the service it is injected: the state that
    [createChatTodoWidget] leaves.  The field initialisers run first, so
    [_isExpanded] is [true] where the method reads it. *)
Definition createChatTodoWidget
    (service : gmap string (list IChatTodo)) : ChatTodoListWidget :=
  let _isExpanded := true in
  let container_style := set_display "none" (mkStyle "" "") in
  let expandoElement := dom.dollar ".todo-list-expand" in
  let expandoElement := setAttribute "role" "button" expandoElement in
  let expandoElement := setAttribute "aria-expanded" "true" expandoElement in
  let expandoElement := setAttribute "tabindex" "0" expandoElement in
  let expandIcon := dom.dollar ".expand-icon.codicon" in
  let expandIcon :=
    classList_add
      (if _isExpanded then "codicon-chevron-down" else "codicon-chevron-right")
      expandIcon in
  let titleElement := dom.dollar ".todo-list-title" in
  let titleElement :=
    textContent_set (localize "chat.todoList.title" "Tasks") titleElement in
  let expandoElement := appendChild expandIcon expandoElement in
  let expandoElement := appendChild titleElement expandoElement in
  let clearButtonContainer := dom.dollar ".todo-clear-button-container" in
  let clearButtonContainer := createClearButton clearButtonContainer in
  let todoListContainer := dom.dollar ".todo-list-container" in
  let todoListContainer :=
    style_display_set (if _isExpanded then "block" else "none")
      todoListContainer in
  mkWidget container_style [] _isExpanded expandoElement todoListContainer
    clearButtonContainer None service.

(** ** What happens to a widget *)

(** The host switches session; the user clicks the header, presses a key
    on it, or clicks the clear button; another collaborator writes the
    shared storage. *)
Inductive Action :=
  | HostUpdateSessionId (sessionId : option string)
  | ExpandoClick
  | ExpandoKeydown (key : string)
  | ClearButtonClick
  | StorageSetTodoList (sessionId : string) (todoList : list IChatTodo).

Definition perform (a : Action) : M () :=
  match a with
  | HostUpdateSessionId sessionId => updateSessionId sessionId
  | ExpandoClick => toggleExpanded
  | ExpandoKeydown key =>
      if String.eqb key "Enter" || String.eqb key " " then toggleExpanded
      else mret ()
  | ClearButtonClick => clearAllTodos
  | StorageSetTodoList sessionId todoList =>
      modify (λ this,
        set_chatTodoListService
          (setTodoList sessionId todoList (chatTodoListService this)) this)
  end.

Inductive reachable : ChatTodoListWidget → Prop :=
  | reachable_new service : reachable (createChatTodoWidget service)
  | reachable_step this a :
      reachable this → reachable (exec (perform a) this).

End Widget.

(** ** A host and the scenario of the specification *)

(** English messages, a bare button element, and a layout that gives every
    root node 44 pixels. *)
Definition plain_host : Host := {|
  localize := λ _ message, message;
  clearButton_element := dom.dollar ".monaco-button";
  offsetHeight := λ _, 44%Z
|}.

(** Session S1 of the specification's scenario. *)
Definition scenario_todos : list IChatTodo :=
  [mkTodo "Write spec" "completed"; mkTodo "Review" "in-progress"].

Definition scenario_storage : gmap string (list IChatTodo) :=
  {["S1" := scenario_todos]}.

(** A storage that holds todos under the empty session identifier. *)
Definition empty_id_storage : gmap string (list IChatTodo) :=
  {["" := scenario_todos]}.

(** A new widget over the scenario's storage, and the same after the host
    has made S1 the active session. *)
Definition new_widget : ChatTodoListWidget :=
  @createChatTodoWidget plain_host scenario_storage.

Definition scenario_widget : ChatTodoListWidget :=
  exec (@updateSessionId plain_host (Some "S1")) new_widget.

(** A widget whose host has passed the empty string as session identifier,
    over a storage that has todos under it. *)
Definition empty_id_widget : ChatTodoListWidget :=
  exec (@updateSessionId plain_host (Some ""))
    (@createChatTodoWidget plain_host empty_id_storage).

(** The scenario's widget after the holder of its public root node has
    given the header title another text. *)
Definition retitled_widget : ChatTodoListWidget :=
  set_expandoElement
    (with_querySelector ".todo-list-title" (textContent_set "Todos")
       (expandoElement scenario_widget))
    scenario_widget.

(** The scenario's widget after another collaborator has emptied the list
    of S1 in the storage: it still shows the two items. *)
Definition stale_widget : ChatTodoListWidget :=
  exec (@perform plain_host (StorageSetTodoList "S1" [])) scenario_widget.

(** The scenario's widget after another collaborator has replaced the list
    of S1 by a single todo. *)
Definition replanned_widget : ChatTodoListWidget :=
  exec (@perform plain_host
          (StorageSetTodoList "S1" [mkTodo "Ship" "not-started"]))
    scenario_widget.

(** A widget on session S1 over a storage that also has todos for a
    session S2. *)
Definition two_session_widget : ChatTodoListWidget :=
  exec (@updateSessionId plain_host (Some "S1"))
    (@createChatTodoWidget plain_host
       (<["S2" := [mkTodo "Ship" "not-started"]]> scenario_storage)).

(** ** View-state invariant *)

Section Invariant.
Context `{Host}.

(** The header element as a function of the expanded flag. *)
Definition expando_shape (expanded : bool) : HTMLElement :=
  mkElement ["todo-list-expand"]
    [("role", "button"); ("aria-expanded", Boolean_toString expanded);
     ("tabindex", "0")]
    (mkStyle "" "")
    [ElementNode
       (mkElement
          ["expand-icon"; "codicon";
           if expanded then "codicon-chevron-down" else "codicon-chevron-right"]
          [] (mkStyle "" "") []);
     ElementNode
       (textContent_set (localize "chat.todoList.title" "Tasks")
          (dom.dollar ".todo-list-title"))].

(** Header and list body agree with [_isExpanded]. *)
Definition view_consistent (this : ChatTodoListWidget) : Prop :=
  expandoElement this = expando_shape (_isExpanded this) ∧
  display (style (todoListContainer this))
    = (if _isExpanded this then "block" else "none").

(** The list body is shown. *)
Definition list_body_visible (this : ChatTodoListWidget) : bool :=
  negb (String.eqb (display (style (todoListContainer this))) "none").

(** Everything a caller or a user can see of a widget except the
    emissions already delivered: the DOM, the view state and the
    storage. *)
Definition observable (this : ChatTodoListWidget) :=
  (domNode this, _isExpanded this, _currentSessionId this,
   chatTodoListService this).
End Invariant.

(** ** Closed forms used by the proofs *)

(** The children of an element searched and updated as
    [querySelector_update] does. *)
Definition querySelector_update_list (selector : string)
    (update : HTMLElement → HTMLElement) : list Node → option (list Node) :=
  fix go (ns : list Node) : option (list Node) :=
    match ns with
    | [] => None
    | TextNode d :: ns' => option_map (cons (TextNode d)) (go ns')
    | ElementNode c :: ns' =>
        if matches selector c then Some (ElementNode (update c) :: ns')
        else match querySelector_update selector update c with
             | Some c' => Some (ElementNode c' :: ns')
             | None => option_map (cons (ElementNode c)) (go ns')
             end
    end.

(** The children of an element searched as [querySelector] does. *)
Definition querySelector_list (selector : string)
  : list Node → option HTMLElement :=
  fix go (ns : list Node) : option HTMLElement :=
    match ns with
    | [] => None
    | TextNode _ :: ns' => go ns'
    | ElementNode c :: ns' =>
        if matches selector c then Some c
        else match querySelector selector c with
             | Some found => Some found
             | None => go ns'
             end
    end.

(** The item node that one iteration of the loop of [renderTodoList]
    appends for the record at [index]. *)
Definition todo_item (index : nat) (todo : IChatTodo) : HTMLElement :=
  mkElement ["todo-item"] [] (mkStyle "" "")
    [ElementNode
       (mkElement
          ["todo-status-icon"; "codicon"; getStatusIconClass (status todo)]
          [] (mkStyle "" (getStatusIconColor (status todo))) []);
     ElementNode
       (mkElement ["todo-content"] [] (mkStyle "" "")
          [ElementNode
             (mkElement ["todo-title"] [] (mkStyle "" "")
                [TextNode
                   (Number_toString (index + 1) +:+ ". " +:+ title todo)])])].

(** No character of the string is a full stop. *)
Fixpoint no_dot (s : string) : bool :=
  match s with
  | EmptyString => true
  | String c rest => negb (Ascii.eqb c ".") && no_dot rest
  end.

(** ** Properties *)

Section Properties.
Context `{Host}.

Ltac run :=
  unfold exec, eval, updateSessionId, clearAllTodos, updateTodoDisplay,
    toggleExpanded, height, fire, modify, gets, mbind, mret, M_bind, M_ret;
  cbn [fst snd].

(** *** The DOM operations *)

Lemma HTMLElement_nested_ind (P : HTMLElement → Prop) :
  (∀ cl a st ns,
     Forall (λ n, match n with ElementNode c => P c | TextNode _ => True end) ns →
     P (mkElement cl a st ns)) →
  ∀ e, P e.
Proof.
  intros step. fix rec 1. intros [cl a st ns]. apply step.
  induction ns as [|[d|c] ns IHns]; constructor; auto.
Qed.

Lemma querySelector_update_unfold selector update cl a st ns :
  querySelector_update selector update (mkElement cl a st ns)
    = option_map (mkElement cl a st)
        (querySelector_update_list selector update ns).
Proof. reflexivity. Qed.

(** Running the same guarded update twice changes nothing more, for an
    update that keeps the class list and is itself idempotent. *)
Lemma querySelector_update_twice selector update :
  (∀ c, classList (update c) = classList c) →
  (∀ c, update (update c) = update c) →
  ∀ e e', querySelector_update selector update e = Some e' →
          querySelector_update selector update e' = Some e'.
Proof.
  intros Hcl Hidem.
  assert (Hm : ∀ c, matches selector (update c) = matches selector c).
  { intros c. unfold matches. by rewrite Hcl. }
  induction e as [cl a st ns IH] using HTMLElement_nested_ind.
  intros e'. rewrite querySelector_update_unfold.
  destruct (querySelector_update_list selector update ns) as [ns'|] eqn:E;
    [|discriminate].
  intros [= <-]. rewrite querySelector_update_unfold.
  enough (querySelector_update_list selector update ns' = Some ns') as ->
    by reflexivity.
  clear cl a st. revert ns' E.
  induction IH as [|n ns Hn _ IHns]; intros ns' E; simpl in E; [discriminate|].
  destruct n as [d|c].
  - destruct (querySelector_update_list selector update ns) as [r|] eqn:Er;
      [|discriminate].
    injection E as <-. simpl. by rewrite (IHns r).
  - destruct (matches selector c) eqn:Ec.
    + injection E as <-. simpl. by rewrite Hm, Ec, Hidem.
    + destruct (querySelector_update selector update c) as [c'|] eqn:Eq.
      * injection E as <-. simpl.
        assert (matches selector c' = false) as ->.
        { destruct c as [cl a st cs]. rewrite querySelector_update_unfold in Eq.
          destruct (querySelector_update_list _ _ cs); [|discriminate].
          injection Eq as <-. exact Ec. }
        by rewrite (Hn c').
      * destruct (querySelector_update_list selector update ns) as [r|] eqn:Er;
          [|discriminate].
        injection E as <-. simpl. by rewrite Ec, Eq, (IHns r).
Qed.

Lemma with_querySelector_twice selector update e :
  (∀ c, classList (update c) = classList c) →
  (∀ c, update (update c) = update c) →
  with_querySelector selector update (with_querySelector selector update e)
    = with_querySelector selector update e.
Proof.
  intros Hcl Hidem. unfold with_querySelector.
  destruct (querySelector_update selector update e) as [e'|] eqn:E.
  - by rewrite (querySelector_update_twice _ _ Hcl Hidem e e').
  - by rewrite E.
Qed.

Lemma textContent_set_twice s e :
  textContent_set s (textContent_set s e) = textContent_set s e.
Proof. by destruct e. Qed.

Lemma textContent_set_classList s e :
  classList (textContent_set s e) = classList e.
Proof. by destruct e. Qed.

Lemma querySelector_unfold selector cl a st ns :
  querySelector selector (mkElement cl a st ns)
    = querySelector_list selector ns.
Proof. reflexivity. Qed.

(** The guarded update changes the element that [querySelector] finds,
    and only when it finds one. *)
Lemma querySelector_update_found selector update :
  (∀ c, classList (update c) = classList c) →
  ∀ e,
    match querySelector selector e with
    | Some found =>
        ∃ e', querySelector_update selector update e = Some e' ∧
              querySelector selector e' = Some (update found)
    | None => querySelector_update selector update e = None
    end.
Proof.
  intros Hcl.
  assert (Hm : ∀ c, matches selector (update c) = matches selector c).
  { intros c. unfold matches. by rewrite Hcl. }
  induction e as [cl a st ns IH] using HTMLElement_nested_ind.
  rewrite querySelector_unfold, querySelector_update_unfold.
  enough (match querySelector_list selector ns with
          | Some found =>
              ∃ ns', querySelector_update_list selector update ns = Some ns' ∧
                     querySelector_list selector ns' = Some (update found)
          | None => querySelector_update_list selector update ns = None
          end) as Hlist.
  { destruct (querySelector_list selector ns) as [found|].
    - destruct Hlist as (ns' & -> & Hq). by eexists.
    - by rewrite Hlist. }
  clear cl a st. induction IH as [|n ns Hn _ IHns]; [done|].
  destruct n as [d|c];
    cbn [querySelector_list querySelector_update_list].
  - destruct (querySelector_list selector ns) as [found|].
    + destruct IHns as (ns' & -> & Hq). by eexists.
    + by rewrite IHns.
  - destruct (matches selector c) eqn:Ec.
    + eexists. split; [done|].
      cbn [querySelector_list]. by rewrite Hm, Ec.
    + destruct (querySelector selector c) as [found|] eqn:Eqc.
      * destruct Hn as (c' & Hu & Hq). rewrite Hu.
        eexists. split; [done|]. cbn [querySelector_list].
        assert (matches selector c' = false) as ->; [|by rewrite Hq].
        destruct c as [cl a st cs].
        rewrite querySelector_update_unfold in Hu.
        destruct (querySelector_update_list selector update cs); [|done].
        by injection Hu as <-.
      * rewrite Hn. destruct (querySelector_list selector ns) as [found|].
        -- destruct IHns as (ns' & -> & Hq). eexists. split; [done|].
           cbn [querySelector_list]. by rewrite Ec, Eqc.
        -- by rewrite IHns.
Qed.

(** *** Rendering *)

Lemma append_nonempty (a b : string) : b ≠ "" → a +:+ b ≠ "".
Proof.
  intros Hb Hab. destruct a; simpl in Hab; [done | discriminate].
Qed.

Lemma label_nonempty index (text : string) :
  String.eqb (Number_toString (index + 1) +:+ ". " +:+ text) "" = false.
Proof.
  apply String.eqb_neq, append_nonempty. discriminate.
Qed.

Lemma getStatusIconClass_fresh status :
  bool_decide
    (getStatusIconClass status ∈ ["todo-status-icon"; "codicon"]) = false.
Proof.
  unfold getStatusIconClass.
  repeat (destruct (String.eqb status _)); reflexivity.
Qed.

(** One iteration appends [todo_item]. *)
Lemma forEach_from_render (l : list IChatTodo) : ∀ index this,
  exec (forEach_from (λ todo index,
    let todoElement := dom.dollar ".todo-item" in
    let statusIcon := dom.dollar ".todo-status-icon.codicon" in
    let statusIcon := classList_add (getStatusIconClass (status todo)) statusIcon in
    let statusIcon := style_color_set (getStatusIconColor (status todo)) statusIcon in
    let todoContent := dom.dollar ".todo-content" in
    let titleElement := dom.dollar ".todo-title" in
    let titleElement :=
      textContent_set (Number_toString (index + 1) +:+ ". " +:+ title todo)
        titleElement in
    let todoContent := appendChild titleElement todoContent in
    let todoElement := appendChild statusIcon todoElement in
    let todoElement := appendChild todoContent todoElement in
    modify (λ this,
      set_todoListContainer
        (appendChild todoElement (todoListContainer this)) this)) index l) this
  = set_todoListContainer
      (set_childNodes
         (childNodes (todoListContainer this)
            ++ imap (λ k todo, ElementNode (todo_item (index + k) todo)) l)
         (todoListContainer this)) this.
Proof.
  induction l as [|todo l IH]; intros index this.
  - simpl. rewrite app_nil_r. by destruct this as [? ? ? ? [] ? ? ?].
  - unfold exec in *. cbn [forEach_from]. unfold mbind, M_bind at 1.
    unfold modify at 1. rewrite IH. clear IH.
    destruct this as [ds log ex ee [cl a st ns] cb sid svc].
    unfold classList_add, textContent_set. cbn [classList dom.dollar].
    change (selector_classes ".todo-status-icon.codicon")
      with ["todo-status-icon"; "codicon"].
    rewrite getStatusIconClass_fresh, label_nonempty.
    cbn. rewrite <- app_assoc. cbn. unfold set_todoListContainer, set_childNodes.
    cbn. do 3 f_equal. rewrite Nat.add_0_r. f_equal.
    apply imap_ext. intros k t _. cbn. by rewrite Nat.add_succ_r.
Qed.

(** [renderTodoList] in closed form: the header title is written again
    and the list container gets exactly the items of the list. *)
Lemma renderTodoList_exec todoList this :
  exec (renderTodoList todoList) this
  = set_todoListContainer
      (set_childNodes (imap (λ k todo, ElementNode (todo_item k todo)) todoList)
         (todoListContainer this))
      (set_expandoElement
         (with_querySelector ".todo-list-title"
            (textContent_set (localize "chat.todoList.title" "Tasks"))
            (expandoElement this)) this).
Proof.
  unfold renderTodoList, forEach.
  unfold exec, mbind, M_bind at 1. unfold modify at 1.
  unfold mbind, M_bind at 1. unfold modify at 1.
  pose proof forEach_from_render as Hf. unfold exec in Hf. rewrite Hf.
  by destruct this as [ds log ex ee [cl a st ns] cb sid svc].
Qed.

(** *** Storage and refresh *)

Lemma ToBoolean_Some (x : option string) :
  ToBoolean x = true ↔ ∃ s, x = Some s ∧ s ≠ "".
Proof.
  destruct x as [s|]; simpl.
  - destruct (String.eqb_spec s ""); simpl; split.
    + discriminate.
    + intros (s' & [= <-] & Hne). contradiction.
    + eauto.
    + reflexivity.
  - split; [discriminate | intros (s & [=] & _)].
Qed.

Lemma getTodoList_setTodoList_eq storage sessionId todoList :
  getTodoList (setTodoList sessionId todoList storage) sessionId = todoList.
Proof. unfold getTodoList, setTodoList. by rewrite lookup_insert_eq. Qed.

(** The three outcomes of a refresh. *)
Lemma updateTodoDisplay_no_session this :
  ToBoolean (_currentSessionId this) = false →
  exec updateTodoDisplay this =
    exec fire
      (set_clearButtonContainer
         (style_display_set "none" (clearButtonContainer this))
         (set_domNode_style (set_display "none" (domNode_style this)) this)).
Proof. intros Hs. run. rewrite Hs. reflexivity. Qed.

Lemma updateTodoDisplay_empty this :
  ToBoolean (_currentSessionId this) = true →
  getTodoList (chatTodoListService this) (default "" (_currentSessionId this))
    = [] →
  exec updateTodoDisplay this =
    exec fire
      (set_clearButtonContainer
         (style_display_set "none" (clearButtonContainer this))
         (set_domNode_style (set_display "none" (domNode_style this)) this)).
Proof. intros Hs Hl. run. rewrite Hs. simpl. rewrite Hl. reflexivity. Qed.

Lemma updateTodoDisplay_nonempty this :
  ToBoolean (_currentSessionId this) = true →
  getTodoList (chatTodoListService this) (default "" (_currentSessionId this))
    ≠ [] →
  exec updateTodoDisplay this =
    let rendered :=
      exec (renderTodoList
              (getTodoList (chatTodoListService this)
                 (default "" (_currentSessionId this)))) this in
    exec fire
      (set_clearButtonContainer
         (style_display_set "flex" (clearButtonContainer rendered))
         (set_domNode_style (set_display "block" (domNode_style rendered))
            rendered)).
Proof.
  intros Hs Hl. run. rewrite Hs. simpl.
  destruct (getTodoList _ _) as [|todo todoList] eqn:E; [done|].
  rewrite bool_decide_eq_true_2 by (simpl; lia).
  destruct (renderTodoList _ this) as [[] rendered]. reflexivity.
Qed.

(** *** The view-state invariant *)

Lemma title_write_expando_shape expanded :
  with_querySelector ".todo-list-title"
    (textContent_set (localize "chat.todoList.title" "Tasks"))
    (expando_shape expanded)
  = expando_shape expanded.
Proof.
  unfold expando_shape, textContent_set.
  destruct (String.eqb (localize "chat.todoList.title" "Tasks") "");
    by destruct expanded.
Qed.

Lemma toggle_expando_shape expanded :
  setAttribute "aria-expanded" (Boolean_toString (negb expanded))
    (with_querySelector ".expand-icon"
       (λ expandIcon,
          classList_toggle "codicon-chevron-right" (negb (negb expanded))
            (classList_toggle "codicon-chevron-down" (negb expanded)
               expandIcon))
       (expando_shape expanded))
  = expando_shape (negb expanded).
Proof.
  unfold expando_shape, textContent_set.
  destruct (String.eqb (localize "chat.todoList.title" "Tasks") "");
    by destruct expanded.
Qed.

Lemma toggleExpanded_exec this :
  exec toggleExpanded this =
    let expanded := negb (_isExpanded this) in
    exec fire
      (set_todoListContainer
         (style_display_set (if expanded then "block" else "none")
            (todoListContainer this))
         (set_expandoElement
            (setAttribute "aria-expanded" (Boolean_toString expanded)
               (with_querySelector ".expand-icon"
                  (λ expandIcon,
                     classList_toggle "codicon-chevron-right" (negb expanded)
                       (classList_toggle "codicon-chevron-down" expanded
                          expandIcon))
                  (expandoElement this)))
            (set__isExpanded expanded this))).
Proof. reflexivity. Qed.

Lemma toggleExpanded_consistent this :
  view_consistent this → view_consistent (exec toggleExpanded this).
Proof.
  intros [He Hd]. rewrite toggleExpanded_exec.
  destruct this as [ds log ex ee [cl a st ns] cb sid svc].
  simpl in *. subst ee. split; simpl.
  - apply toggle_expando_shape.
  - reflexivity.
Qed.

Lemma renderTodoList_consistent todoList this :
  view_consistent this → view_consistent (exec (renderTodoList todoList) this).
Proof.
  intros [He Hd]. rewrite renderTodoList_exec.
  destruct this as [ds log ex ee [cl a st ns] cb sid svc].
  simpl in *. subst ee. split; simpl; [apply title_write_expando_shape | done].
Qed.

Lemma updateTodoDisplay_consistent this :
  view_consistent this → view_consistent (exec updateTodoDisplay this).
Proof.
  intros Hc.
  destruct (ToBoolean (_currentSessionId this)) eqn:Hs.
  - destruct (decide (getTodoList (chatTodoListService this)
                        (default "" (_currentSessionId this)) = [])) as [Hl|Hl].
    + rewrite updateTodoDisplay_empty by done.
      by destruct this as [ds log ex ee [cl a st ns] cb sid svc].
    + rewrite updateTodoDisplay_nonempty by done.
      apply (renderTodoList_consistent
               (getTodoList (chatTodoListService this)
                  (default "" (_currentSessionId this)))) in Hc.
      cbv zeta.
      by destruct (exec (renderTodoList _) this)
        as [ds log ex ee [cl a st ns] cb sid svc].
  - rewrite updateTodoDisplay_no_session by done.
    by destruct this as [ds log ex ee [cl a st ns] cb sid svc].
Qed.

Lemma clearAllTodos_exec this :
  exec clearAllTodos this =
    if ToBoolean (_currentSessionId this) then
      exec updateTodoDisplay
        (set_chatTodoListService
           (setTodoList (default "" (_currentSessionId this)) []
              (chatTodoListService this)) this)
    else this.
Proof.
  unfold clearAllTodos, exec, gets, modify, mbind, M_bind, mret, M_ret.
  cbn [fst snd]. by destruct (ToBoolean (_currentSessionId this)).
Qed.

Lemma perform_consistent a this :
  view_consistent this → view_consistent (exec (perform a) this).
Proof.
  intros Hc. destruct a as [sessionId| |key| |sessionId todoList]; simpl.
  - apply (updateTodoDisplay_consistent (set__currentSessionId sessionId this)).
    by destruct this.
  - by apply toggleExpanded_consistent.
  - destruct (_ || _); [by apply toggleExpanded_consistent | done].
  - rewrite clearAllTodos_exec. destruct (ToBoolean _); [|done].
    apply updateTodoDisplay_consistent. by destruct this.
  - by destruct this.
Qed.

Lemma reachable_consistent this : reachable this → view_consistent this.
Proof.
  induction 1 as [service|this a _ IH].
  - split; reflexivity.
  - by apply perform_consistent.
Qed.

(** *** Status presentation *)

(** C3: the status mapping is total over strings.  [completed] gives the
    check glyph and the green token, [in-progress] the record glyph and
    the blue token, [not-started] the open circle and the foreground
    colour, and every other string gives the pair of [not-started]. *)
Theorem status_mapping_total :
  (getStatusIconClass "completed" = "codicon-check" ∧
   getStatusIconColor "completed" = "var(--vscode-charts-green)") ∧
  (getStatusIconClass "in-progress" = "codicon-record" ∧
   getStatusIconColor "in-progress" = "var(--vscode-charts-blue)") ∧
  (getStatusIconClass "not-started" = "codicon-circle-large-outline" ∧
   getStatusIconColor "not-started" = "var(--vscode-foreground)") ∧
  (∀ status : string,
     status ≠ "completed" → status ≠ "in-progress" →
     status ≠ "not-started" →
     getStatusIconClass status = getStatusIconClass "not-started" ∧
     getStatusIconColor status = getStatusIconColor "not-started").
Proof.
  split; [done|]. split; [done|]. split; [done|].
  intros s Hc Hp Hn. unfold getStatusIconClass, getStatusIconColor.
  apply String.eqb_neq in Hc, Hp, Hn. by rewrite Hc, Hp, Hn.
Qed.

(** *** Height *)

(** C9: the height getter leaves the widget as it is; it returns 0 when
    the root node's display is [none] and the host's measure of the root
    node otherwise; with a host whose measures are non-negative the
    result is a non-negative integer. *)
Theorem height_read_only_nonneg
    (offsetHeight_nonneg : ∀ e, (0 ≤ offsetHeight e)%Z)
    (this : ChatTodoListWidget) :
  exec height this = this ∧
  (display (domNode_style this) = "none" → eval height this = 0%Z) ∧
  (display (domNode_style this) ≠ "none" →
   eval height this = offsetHeight (domNode this)) ∧
  (0 ≤ eval height this)%Z.
Proof.
  run. destruct (String.eqb_spec (display (domNode_style this)) "none") as [E|E];
    cbn [fst snd]; repeat split; try done; try apply offsetHeight_nonneg.
Qed.

(** *** Refresh *)

(** C1, as the code has it: after a refresh the root node is shown
    exactly when the session identifier is a non-empty string and the
    list stored for it is non-empty, and the clear-control container is
    shown exactly when the root node is. *)
Theorem updateTodoDisplay_visibility (this : ChatTodoListWidget) :
  let after := exec updateTodoDisplay this in
  (display (domNode_style after) ≠ "none" ↔
     ∃ sessionId, _currentSessionId this = Some sessionId ∧ sessionId ≠ "" ∧
                  getTodoList (chatTodoListService this) sessionId ≠ []) ∧
  (display (style (clearButtonContainer after)) ≠ "none" ↔
     display (domNode_style after) ≠ "none").
Proof.
  cbv zeta. destruct (ToBoolean (_currentSessionId this)) eqn:Hs.
  - pose proof (proj1 (ToBoolean_Some _) Hs) as (s & Hsid & Hne).
    destruct (decide (getTodoList (chatTodoListService this)
                        (default "" (_currentSessionId this)) = [])) as [Hl|Hl].
    + rewrite updateTodoDisplay_empty by done.
      rewrite Hsid in Hl. simpl in Hl.
      destruct this as [ds log ex ee tl [cl a st ns] sid svc]. simpl in *.
      split; split; try done.
      intros (s' & Hs' & _ & Hl'). congruence.
    + rewrite updateTodoDisplay_nonempty by done. cbv zeta.
      rewrite Hsid in Hl. simpl in Hl.
      destruct (exec (renderTodoList _) this)
        as [ds log ex ee tl [cl a st ns] sid svc].
      simpl. split; split; try done. eauto.
  - rewrite updateTodoDisplay_no_session by done.
    assert (¬ ∃ s, _currentSessionId this = Some s ∧ s ≠ "") as Hno.
    { intros Hex. apply ToBoolean_Some in Hex. congruence. }
    destruct this as [ds log ex ee tl [cl a st ns] sid svc]. simpl in *.
    split; split; try done.
    intros (s' & Hs' & Hne & _). destruct Hno. eauto.
Qed.

(** A refresh either hides the root node and keeps the list container, or
    shows the root node. *)
Lemma updateTodoDisplay_outcome (this : ChatTodoListWidget) :
  let after := exec updateTodoDisplay this in
  (display (domNode_style after) = "none" ∧
   todoListContainer after = todoListContainer this ∧
   (ToBoolean (_currentSessionId this) = false ∨
    getTodoList (chatTodoListService this)
      (default "" (_currentSessionId this)) = [])) ∨
  (display (domNode_style after) = "block" ∧
   ToBoolean (_currentSessionId this) = true ∧
   getTodoList (chatTodoListService this)
     (default "" (_currentSessionId this)) ≠ []).
Proof.
  cbv zeta. destruct (ToBoolean (_currentSessionId this)) eqn:Hs.
  - destruct (decide (getTodoList (chatTodoListService this)
                        (default "" (_currentSessionId this)) = [])) as [Hl|Hl].
    + left. rewrite updateTodoDisplay_empty by done.
      destruct this; simpl; auto.
    + right. rewrite updateTodoDisplay_nonempty by done. cbv zeta.
      by destruct (exec (renderTodoList _) this).
  - left. rewrite updateTodoDisplay_no_session by done.
    destruct this; simpl; auto.
Qed.

(** C10: a refresh that hides the widget, as it does whenever the session
    identifier is undefined or the list fetched for it is empty, leaves
    the list container and the item nodes in it exactly as they were; and
    whatever happens to the widget, the children of the list container
    change only if the root node is shown afterwards, that is by the
    render of a non-empty list. *)
Theorem updateTodoDisplay_hidden_keeps_items (this : ChatTodoListWidget) :
  let after := exec updateTodoDisplay this in
  (_currentSessionId this = None ∨
   (∃ sessionId, _currentSessionId this = Some sessionId ∧
                 getTodoList (chatTodoListService this) sessionId = []) →
   display (domNode_style after) = "none") ∧
  (display (domNode_style after) = "none" →
   todoListContainer after = todoListContainer this) ∧
  (∀ a : Action,
     childNodes (todoListContainer (exec (perform a) this))
       ≠ childNodes (todoListContainer this) →
     display (domNode_style (exec (perform a) this)) = "block").
Proof.
  cbv zeta. split; [|split].
  - destruct (updateTodoDisplay_outcome this) as [(Hd & _)|(_ & Hs & Hl)];
      [done|].
    intros [Hn|(s & Hn & He)]; rewrite Hn in *; done.
  - destruct (updateTodoDisplay_outcome this) as [(_ & Hk & _)|(Hd & _)];
      [done|].
    rewrite Hd. discriminate.
  - intros a Hch.
    destruct a as [sessionId| |key| |sessionId todoList];
      cbn [perform] in Hch |- *.
    + destruct (updateTodoDisplay_outcome (set__currentSessionId sessionId this))
        as [(_ & Hk & _)|(Hd & _)]; [|done].
      unfold updateSessionId, exec, mbind, M_bind, modify in Hch.
      unfold exec in Hk. destruct Hch. rewrite Hk. by destruct this.
    + destruct Hch. rewrite toggleExpanded_exec.
      by destruct this as [ds log ex ee [cl a st ns] cb sid svc].
    + destruct (_ || _); [|done].
      destruct Hch. rewrite toggleExpanded_exec.
      by destruct this as [ds log ex ee [cl a st ns] cb sid svc].
    + rewrite clearAllTodos_exec in Hch |- *.
      destruct (ToBoolean (_currentSessionId this)); [|done].
      match goal with
      | |- context [exec updateTodoDisplay ?w] =>
          destruct (updateTodoDisplay_outcome w) as [(_ & Hk & _)|(Hd & _)];
            [|done]
      end.
      destruct Hch. rewrite Hk. by destruct this.
    + destruct Hch. by destruct this.
Qed.

(** *** Clear all *)

(** C2, as the code has it: [clearAllTodos] does nothing when the session
    identifier is undefined or the empty string; for a non-empty
    identifier it stores the empty list under it and refreshes, which
    hides the widget and emits one height change; and calling it twice
    shows the same DOM, view state and storage as calling it once. *)
Theorem clearAllTodos_effect (this : ChatTodoListWidget) :
  (_currentSessionId this = None ∨ _currentSessionId this = Some "" →
   exec clearAllTodos this = this) ∧
  (∀ sessionId, _currentSessionId this = Some sessionId → sessionId ≠ "" →
     let written :=
       set_chatTodoListService
         (setTodoList sessionId [] (chatTodoListService this)) this in
     let after := exec clearAllTodos this in
     after = exec updateTodoDisplay written ∧
     chatTodoListService after
       = <[sessionId := []]> (chatTodoListService this) ∧
     getTodoList (chatTodoListService after) sessionId = [] ∧
     display (domNode_style after) = "none" ∧
     _onDidChangeHeight after
       = (_onDidChangeHeight this ++ [domNode after])%list) ∧
  observable (exec clearAllTodos (exec clearAllTodos this))
    = observable (exec clearAllTodos this).
Proof.
  split; [|split].
  - rewrite clearAllTodos_exec. by intros [-> | ->].
  - intros sessionId Hsid Hne. cbv zeta. rewrite clearAllTodos_exec.
    assert (ToBoolean (_currentSessionId this) = true) as ->
      by (apply ToBoolean_Some; eauto).
    rewrite Hsid. cbn [default]. split; [done|].
    rewrite updateTodoDisplay_empty.
    + destruct this as [ds log ex ee tl cb sid svc]. simpl.
      unfold setTodoList. repeat split; try done.
      unfold getTodoList. by rewrite lookup_insert_eq.
    + destruct this; simpl in *. subst. apply ToBoolean_Some; eauto.
    + destruct this; simpl in *. subst. simpl.
      apply getTodoList_setTodoList_eq.
  - rewrite (clearAllTodos_exec this).
    destruct (ToBoolean (_currentSessionId this)) eqn:Hs.
    + pose proof (proj1 (ToBoolean_Some _) Hs) as (s & Hsid & Hne).
      rewrite Hsid. cbn [default].
      rewrite updateTodoDisplay_empty; cycle 1.
      { by destruct this. }
      { destruct this; simpl in *. subst. simpl.
        apply getTodoList_setTodoList_eq. }
      rewrite clearAllTodos_exec.
      destruct this as [ds log ex ee tl [cl a st ns] sid svc].
      simpl in *. subst sid. rewrite Hs. cbn [default].
      rewrite updateTodoDisplay_empty; cycle 1.
      { done. }
      { simpl. apply getTodoList_setTodoList_eq. }
      unfold observable, setTodoList. simpl.
      by rewrite insert_insert_eq.
    + rewrite clearAllTodos_exec. by rewrite Hs.
Qed.

(** *** Rendering the list *)

Lemma append_empty_r (s : string) : s +:+ "" = s.
Proof.
  induction s as [|c s IH]; [done|].
  change (String c (s +:+ "") = String c s). by rewrite IH.
Qed.

Lemma textContent_todo_item index todo :
  textContent (todo_item index todo)
    = Number_toString (index + 1) +:+ ". " +:+ title todo.
Proof.
  unfold todo_item. cbn [textContent].
  change ("" +:+ ?s) with s. by rewrite !append_empty_r.
Qed.

Lemma statusIcon_todo_item index todo :
  querySelector ".todo-status-icon" (todo_item index todo)
    = Some (mkElement
              ["todo-status-icon"; "codicon"; getStatusIconClass (status todo)]
              [] (mkStyle "" (getStatusIconColor (status todo))) []).
Proof. reflexivity. Qed.

(** C4: the list container holds one item node per record, in the order
    of the list; the item at position [i] reads [<i+1>. <title>] and its
    status icon carries the glyph class and the colour that the status
    mapping gives for the record's status. *)
Theorem renderTodoList_items (todoList : list IChatTodo)
    (this : ChatTodoListWidget) :
  let items :=
    childNodes (todoListContainer (exec (renderTodoList todoList) this)) in
  length items = length todoList ∧
  ∀ (i : nat) (todo : IChatTodo), todoList !! i = Some todo →
    ∃ item statusIcon,
      items !! i = Some (ElementNode item) ∧
      classList item = ["todo-item"] ∧
      textContent item = Number_toString (i + 1) +:+ ". " +:+ title todo ∧
      querySelector ".todo-status-icon" item = Some statusIcon ∧
      getStatusIconClass (status todo) ∈ classList statusIcon ∧
      color (style statusIcon) = getStatusIconColor (status todo).
Proof.
  cbv zeta. rewrite renderTodoList_exec.
  destruct this as [ds log ex ee [cl a st ns] cb sid svc]. cbn.
  split; [apply length_imap|].
  intros i todo Hi. eexists (todo_item i todo), _.
  rewrite list_lookup_imap, Hi. split; [done|]. split; [done|].
  split; [apply textContent_todo_item|].
  split; [apply statusIcon_todo_item|].
  split; [|done]. cbn. set_solver.
Qed.

(** C5: a render drops whatever the list container held and fills it
    from the list alone, so rendering the same list a second time leaves
    the widget, and in it the count and content of the items, as the
    first render left it. *)
Theorem renderTodoList_idempotent (todoList : list IChatTodo)
    (this : ChatTodoListWidget) :
  (∀ previous : list Node,
     childNodes
       (todoListContainer
          (exec (renderTodoList todoList)
             (set_todoListContainer
                (set_childNodes previous (todoListContainer this)) this)))
     = childNodes (todoListContainer (exec (renderTodoList todoList) this))) ∧
  length (childNodes (todoListContainer (exec (renderTodoList todoList) this)))
    = length todoList ∧
  exec (renderTodoList todoList) (exec (renderTodoList todoList) this)
    = exec (renderTodoList todoList) this.
Proof.
  rewrite !renderTodoList_exec. split; [|split].
  - intros previous. rewrite renderTodoList_exec.
    by destruct this as [ds log ex ee [cl a st ns] cb sid svc].
  - destruct this as [ds log ex ee [cl a st ns] cb sid svc]. cbn.
    apply length_imap.
  - destruct this as [ds log ex ee [cl a st ns] cb sid svc]. cbn.
    unfold set_todoListContainer, set_expandoElement. cbn.
    f_equal. apply with_querySelector_twice.
    + apply textContent_set_classList.
    + apply textContent_set_twice.
Qed.

Lemma classList_with_querySelector selector update e :
  classList (with_querySelector selector update e) = classList e.
Proof.
  unfold with_querySelector. destruct e as [cl a st ns].
  rewrite querySelector_update_unfold.
  by destruct (querySelector_update_list selector update ns).
Qed.

Lemma attributes_style_with_querySelector selector update e :
  attributes (with_querySelector selector update e) = attributes e ∧
  style (with_querySelector selector update e) = style e.
Proof.
  unfold with_querySelector. destruct e as [cl a st ns].
  rewrite querySelector_update_unfold.
  by destruct (querySelector_update_list selector update ns).
Qed.

(** C7, as the code has it: a render writes into the list container and,
    on every call, assigns the localized title to the text of the header's
    title element, which is outside the list container.  These are its
    only effects, on every state: the state after is the state before with
    the children of the list container replaced and the header's title
    element, if it has one, given that text; the header's own classes,
    attributes and style and every other field are kept, nothing is
    returned, and the children left depend on the list alone.  On every
    state the widget can reach the title holds that text already, so the
    header is unchanged as a value. *)
Theorem renderTodoList_frame (todoList : list IChatTodo)
    (this : ChatTodoListWidget) :
  let after := exec (renderTodoList todoList) this in
  let titleText := localize "chat.todoList.title" "Tasks" in
  after
    = set_todoListContainer
        (set_childNodes (childNodes (todoListContainer after))
           (todoListContainer this))
        (set_expandoElement
           (with_querySelector ".todo-list-title" (textContent_set titleText)
              (expandoElement this)) this) ∧
  (∀ other : ChatTodoListWidget,
     childNodes (todoListContainer (exec (renderTodoList todoList) other))
       = childNodes (todoListContainer after)) ∧
  (classList (expandoElement after) = classList (expandoElement this) ∧
   attributes (expandoElement after) = attributes (expandoElement this) ∧
   style (expandoElement after) = style (expandoElement this)) ∧
  (∀ titleElement,
     querySelector ".todo-list-title" (expandoElement this) = Some titleElement →
     querySelector ".todo-list-title" (expandoElement after)
       = Some (textContent_set titleText titleElement)) ∧
  (querySelector ".todo-list-title" (expandoElement this) = None →
   expandoElement after = expandoElement this) ∧
  (reachable this →
   expandoElement after = expandoElement this ∧
   after
     = set_todoListContainer
         (set_childNodes (childNodes (todoListContainer after))
            (todoListContainer this)) this).
Proof.
  cbv zeta. rewrite renderTodoList_exec.
  pose proof (querySelector_update_found ".todo-list-title"
                (textContent_set (localize "chat.todoList.title" "Tasks"))
                (textContent_set_classList _) (expandoElement this)) as Hfound.
  destruct this as [ds log ex ee [cl a st ns] cb sid svc]. cbn in *.
  split; [done|]. split.
  { intros other. rewrite renderTodoList_exec.
    by destruct other as [ds' log' ex' ee' [cl' a' st' ns'] cb' sid' svc']. }
  split.
  { split; [apply classList_with_querySelector|].
    apply attributes_style_with_querySelector. }
  split.
  { intros titleElement Hq. rewrite Hq in Hfound.
    destruct Hfound as (e' & Hu & Hq'). unfold with_querySelector.
    by rewrite Hu. }
  split.
  { intros Hq. rewrite Hq in Hfound. unfold with_querySelector.
    by rewrite Hfound. }
  intros Hr. apply reachable_consistent in Hr as [He _]. cbn in He. subst ee.
  rewrite title_write_expando_shape. by split.
Qed.

(** *** Expand and collapse *)

Lemma toggleExpanded_flag this :
  _isExpanded (exec toggleExpanded this) = negb (_isExpanded this).
Proof. rewrite toggleExpanded_exec. by destruct this. Qed.

Lemma toggleExpanded_kept this :
  let after := exec toggleExpanded this in
  domNode_style after = domNode_style this ∧
  clearButtonContainer after = clearButtonContainer this ∧
  _currentSessionId after = _currentSessionId this ∧
  chatTodoListService after = chatTodoListService this ∧
  todoListContainer after
    = style_display_set (if _isExpanded after then "block" else "none")
        (todoListContainer this).
Proof. rewrite toggleExpanded_exec. by destruct this. Qed.

Lemma toggleExpanded_twice this :
  view_consistent this →
  observable (exec toggleExpanded (exec toggleExpanded this))
    = observable this.
Proof.
  intros Hc.
  pose proof (toggleExpanded_consistent _ Hc) as Hc1.
  pose proof (toggleExpanded_consistent _ Hc1) as [He2 _].
  destruct Hc as [He Hd].
  destruct (toggleExpanded_kept (exec toggleExpanded this))
    as (Hs2 & Hb2 & Hi2 & Hv2 & Hl2).
  destruct (toggleExpanded_kept this) as (Hs1 & Hb1 & Hi1 & Hv1 & Hl1).
  cbv zeta in *.
  rewrite !toggleExpanded_flag, negb_involutive in He2, Hl2.
  unfold observable, domNode, headerContainer.
  rewrite !toggleExpanded_flag, negb_involutive.
  rewrite Hs2, Hs1, Hb2, Hb1, Hi2, Hi1, Hv2, Hv1, He2, He, Hl2, Hl1.
  do 4 f_equal.
  destruct (todoListContainer this) as [cl a [d c] ns]. simpl in *.
  by subst d.
Qed.

Lemma observable_inv this other :
  observable this = observable other →
  domNode this = domNode other ∧ _isExpanded this = _isExpanded other.
Proof.
  intros E. split.
  - exact (f_equal (λ o, o.1.1.1) E).
  - exact (f_equal (λ o, o.1.1.2) E).
Qed.

Lemma toggleExpanded_even n this :
  view_consistent this →
  observable (Nat.iter (2 * n) (exec toggleExpanded) this) = observable this ∧
  view_consistent (Nat.iter (2 * n) (exec toggleExpanded) this).
Proof.
  intros Hc. induction n as [|n [IHo IHc]]; [done|].
  replace (2 * S n) with (S (S (2 * n))) by lia. rewrite !Nat.iter_succ.
  split.
  - by rewrite toggleExpanded_twice.
  - by do 2 apply toggleExpanded_consistent.
Qed.

(** C6: from every state the widget can reach, an even number of toggles
    brings back the expanded flag, the [aria-expanded] attribute and the
    visibility of the list body (indeed the whole DOM), and an odd number
    inverts the three. *)
Theorem toggleExpanded_parity (n : nat) (this : ChatTodoListWidget) :
  reachable this →
  let after := Nat.iter n (exec toggleExpanded) this in
  (Nat.even n = true →
     _isExpanded after = _isExpanded this ∧
     getAttribute "aria-expanded" (expandoElement after)
       = getAttribute "aria-expanded" (expandoElement this) ∧
     list_body_visible after = list_body_visible this ∧
     domNode after = domNode this) ∧
  (Nat.odd n = true →
     _isExpanded after = negb (_isExpanded this) ∧
     getAttribute "aria-expanded" (expandoElement this)
       = Some (Boolean_toString (_isExpanded this)) ∧
     getAttribute "aria-expanded" (expandoElement after)
       = Some (Boolean_toString (negb (_isExpanded this))) ∧
     list_body_visible after = negb (list_body_visible this)).
Proof.
  intros Hr. apply reachable_consistent in Hr. cbv zeta. split.
  - intros [k ->]%Nat.even_spec.
    destruct (toggleExpanded_even k this Hr) as [Ho Hc].
    generalize dependent (Nat.iter (2 * k) (exec toggleExpanded) this).
    intros after Ho Hc.
    destruct Hr as [He Hd], Hc as [He' Hd'].
    apply observable_inv in Ho as [Hdom Hex]. unfold list_body_visible.
    by rewrite He', He, Hd', Hd, Hex, Hdom.
  - intros [k ->]%Nat.odd_spec.
    replace (2 * k + 1) with (S (2 * k)) by lia. rewrite Nat.iter_succ.
    destruct (toggleExpanded_even k this Hr) as [Ho Hc].
    generalize dependent (Nat.iter (2 * k) (exec toggleExpanded) this).
    intros before Ho Hc.
    pose proof (toggleExpanded_consistent _ Hc) as [He' Hd'].
    destruct Hr as [He Hd].
    apply observable_inv in Ho as [_ Hex]. unfold list_body_visible.
    rewrite He', He, Hd', Hd, toggleExpanded_flag, Hex.
    by destruct (_isExpanded this).
Qed.

Lemma attr_lookup_update name value a :
  attr_lookup name (attr_update name value a) = Some value.
Proof.
  induction a as [|[n v] a IH]; simpl.
  - by rewrite String.eqb_refl.
  - destruct (String.eqb n name) eqn:E; simpl; by rewrite E.
Qed.

(** C8: a toggle keeps the session identifier and the storage, and its
    outcome does not depend on either; it keeps the root node's style,
    the clear-control container and the items of the list container.  It
    flips the expanded flag, sets [aria-expanded] and the display of the
    list body from the new flag, swaps the chevron class on every state
    the widget can reach, and then emits one height change, whose
    listeners see the new DOM. *)
Theorem toggleExpanded_view_only (this : ChatTodoListWidget) :
  let after := exec toggleExpanded this in
  (_currentSessionId after = _currentSessionId this ∧
   chatTodoListService after = chatTodoListService this ∧
   (∀ storage sessionId,
      exec toggleExpanded
        (set_chatTodoListService storage
           (set__currentSessionId sessionId this))
      = set_chatTodoListService storage
          (set__currentSessionId sessionId after))) ∧
  (domNode_style after = domNode_style this ∧
   clearButtonContainer after = clearButtonContainer this ∧
   childNodes (todoListContainer after) = childNodes (todoListContainer this)) ∧
  (_isExpanded after = negb (_isExpanded this) ∧
   getAttribute "aria-expanded" (expandoElement after)
     = Some (Boolean_toString (_isExpanded after)) ∧
   display (style (todoListContainer after))
     = (if _isExpanded after then "block" else "none") ∧
   (reachable this →
    ∃ expandIcon,
      querySelector ".expand-icon" (expandoElement after) = Some expandIcon ∧
      classList expandIcon
        = ["expand-icon"; "codicon";
           if _isExpanded after then "codicon-chevron-down"
           else "codicon-chevron-right"])) ∧
  _onDidChangeHeight after
    = (_onDidChangeHeight this ++ [domNode after])%list.
Proof.
  cbv zeta. split; [|split; [|split]].
  - rewrite toggleExpanded_exec. by destruct this.
  - rewrite toggleExpanded_exec.
    by destruct this as [ds log ex ee [cl a st ns] cb sid svc].
  - split; [apply toggleExpanded_flag|]. split; [|split].
    + rewrite toggleExpanded_exec.
      destruct this as [ds log ex ee [cl a st ns] cb sid svc]. cbn.
      destruct (with_querySelector _ _ ee) as [cl' a' st' ns'].
      unfold getAttribute, setAttribute. cbn. apply attr_lookup_update.
    + rewrite toggleExpanded_exec.
      by destruct this as [ds log ex ee [cl a st ns] cb sid svc].
    + intros Hr. apply reachable_consistent in Hr.
      apply toggleExpanded_consistent in Hr as [-> _].
      eexists. split; [reflexivity|]. reflexivity.
  - rewrite toggleExpanded_exec.
    by destruct this as [ds log ex ee [cl a st ns] cb sid svc].
Qed.
End Properties.

(** ** The properties at the scenario *)

Lemma empty_id_widget_reachable : @reachable plain_host empty_id_widget.
Proof.
  apply (@reachable_step plain_host
           (@createChatTodoWidget plain_host empty_id_storage)
           (HostUpdateSessionId (Some ""))), reachable_new.
Qed.

Lemma scenario_widget_reachable : @reachable plain_host scenario_widget.
Proof.
  apply (@reachable_step plain_host new_widget
           (HostUpdateSessionId (Some "S1"))), reachable_new.
Qed.

(** An unrecognised status is presented as [not-started]. *)
Lemma status_mapping_total_witness :
  getStatusIconClass "blocked" = getStatusIconClass "not-started" ∧
  getStatusIconColor "blocked" = getStatusIconColor "not-started".
Proof.
  apply (proj2 (proj2 (proj2 status_mapping_total)) "blocked"); discriminate.
Defined.

(** The scenario's widget measures 44 pixels and a new one, hidden, 0. *)
Lemma height_read_only_nonneg_witness :
  (0 ≤ eval (@height plain_host) scenario_widget)%Z ∧
  eval (@height plain_host) scenario_widget = 44%Z ∧
  eval (@height plain_host) new_widget = 0%Z.
Proof.
  assert (Hnn : ∀ e, (0 ≤ @offsetHeight plain_host e)%Z) by (intros e; simpl; lia).
  split; [|split].
  - apply (@height_read_only_nonneg plain_host Hnn scenario_widget).
  - apply (@height_read_only_nonneg plain_host Hnn scenario_widget).
    vm_compute. discriminate.
  - apply (@height_read_only_nonneg plain_host Hnn new_widget). reflexivity.
Defined.

(** With the empty string as session identifier the refresh hides the
    widget although the identifier is defined and the list stored under it
    is not empty. *)
Lemma updateTodoDisplay_empty_session_id_hidden :
  ¬ (display (domNode_style (exec (@updateTodoDisplay plain_host) empty_id_widget))
       ≠ "none" ↔
     ∃ sessionId, _currentSessionId empty_id_widget = Some sessionId ∧
                  getTodoList (chatTodoListService empty_id_widget) sessionId
                    ≠ []).
Proof.
  intros [_ Hshown]. apply Hshown; [|reflexivity].
  exists "". split; [reflexivity|]. vm_compute. discriminate.
Qed.

(** With the empty string as session identifier [clearAllTodos] writes
    nothing and does not refresh: the widget is as before and the list
    stored under the identifier is still there. *)
Lemma clearAllTodos_empty_session_id_no_write :
  _currentSessionId empty_id_widget = Some "" ∧
  exec (@clearAllTodos plain_host) empty_id_widget = empty_id_widget ∧
  getTodoList
    (chatTodoListService (exec (@clearAllTodos plain_host) empty_id_widget)) ""
    ≠ [].
Proof.
  split; [reflexivity|]. split; [reflexivity|]. vm_compute. discriminate.
Qed.

(** Clearing session S1 of the scenario empties its list and hides the
    widget. *)
Lemma clearAllTodos_effect_witness :
  getTodoList
    (chatTodoListService (exec (@clearAllTodos plain_host) scenario_widget)) "S1"
    = [] ∧
  display (domNode_style (exec (@clearAllTodos plain_host) scenario_widget))
    = "none".
Proof.
  assert (Hne : "S1" ≠ "") by discriminate.
  pose proof (proj1 (proj2 (@clearAllTodos_effect plain_host scenario_widget))
                "S1" eq_refl Hne) as (_ & _ & Hl & Hd & _).
  exact (conj Hl Hd).
Defined.

(** The second item of the scenario reads [2. Review] and has the record
    glyph in blue. *)
Lemma renderTodoList_items_witness :
  ∃ item statusIcon,
    childNodes
      (todoListContainer
         (exec (@renderTodoList plain_host scenario_todos) new_widget)) !! 1
      = Some (ElementNode item) ∧
    classList item = ["todo-item"] ∧
    textContent item = "2. Review" ∧
    querySelector ".todo-status-icon" item = Some statusIcon ∧
    "codicon-record" ∈ classList statusIcon ∧
    color (style statusIcon) = "var(--vscode-charts-blue)".
Proof.
  exact (proj2 (@renderTodoList_items plain_host scenario_todos new_widget)
           1 (mkTodo "Review" "in-progress") eq_refl).
Defined.

(** A render gives the retitled header its localized title back: the
    text of a node outside the list container has changed, so the state
    after is not the state before with new list items. *)
Lemma renderTodoList_rewrites_title :
  textContent (expandoElement retitled_widget) = "Todos" ∧
  textContent
    (expandoElement
       (exec (@renderTodoList plain_host scenario_todos) retitled_widget))
    = "Tasks" ∧
  exec (@renderTodoList plain_host scenario_todos) retitled_widget
    ≠ set_todoListContainer
        (set_childNodes
           (childNodes
              (todoListContainer
                 (exec (@renderTodoList plain_host scenario_todos)
                    retitled_widget)))
           (todoListContainer retitled_widget)) retitled_widget.
Proof.
  split; [reflexivity|]. split; [reflexivity|].
  intros E. apply (f_equal (λ w, textContent (expandoElement w))) in E.
  vm_compute in E. congruence.
Qed.

(** Rendering another list on the scenario's widget changes the children
    of the list container only, and on the retitled widget the header
    title reads the localized text again. *)
Lemma renderTodoList_frame_witness :
  exec (@renderTodoList plain_host [mkTodo "Ship" "not-started"]) scenario_widget
    = set_todoListContainer
        (set_childNodes
           (childNodes
              (todoListContainer
                 (exec (@renderTodoList plain_host [mkTodo "Ship" "not-started"])
                    scenario_widget)))
           (todoListContainer scenario_widget)) scenario_widget ∧
  querySelector ".todo-list-title"
    (expandoElement
       (exec (@renderTodoList plain_host scenario_todos) retitled_widget))
    = Some (textContent_set "Tasks" (dom.dollar ".todo-list-title")).
Proof.
  split.
  - destruct (@renderTodoList_frame plain_host [mkTodo "Ship" "not-started"]
                scenario_widget) as (_ & _ & _ & _ & _ & Hreach).
    exact (proj2 (Hreach scenario_widget_reachable)).
  - destruct (@renderTodoList_frame plain_host scenario_todos retitled_widget)
      as (_ & _ & _ & Htitle & _).
    exact (Htitle (textContent_set "Todos" (dom.dollar ".todo-list-title"))
             eq_refl).
Defined.

(** Two toggles give the scenario's DOM back; three hide the list body. *)
Lemma toggleExpanded_parity_witness :
  domNode (Nat.iter 2 (exec toggleExpanded) scenario_widget)
    = domNode scenario_widget ∧
  list_body_visible
    (Nat.iter 3 (exec toggleExpanded) scenario_widget)
    = negb (list_body_visible scenario_widget).
Proof.
  split.
  - apply (proj1 (@toggleExpanded_parity plain_host 2 scenario_widget
                    scenario_widget_reachable)). reflexivity.
  - apply (proj2 (@toggleExpanded_parity plain_host 3 scenario_widget
                    scenario_widget_reachable)). reflexivity.
Defined.

(** A toggle of the scenario's widget shows the right chevron. *)
Lemma toggleExpanded_view_only_witness :
  ∃ expandIcon,
    querySelector ".expand-icon"
      (expandoElement (exec toggleExpanded scenario_widget))
      = Some expandIcon ∧
    classList expandIcon
      = ["expand-icon"; "codicon";
         if _isExpanded (exec toggleExpanded scenario_widget)
         then "codicon-chevron-down" else "codicon-chevron-right"].
Proof.
  destruct (@toggleExpanded_view_only plain_host scenario_widget)
    as (_ & _ & (_ & _ & _ & Hglyph) & _).
  exact (Hglyph scenario_widget_reachable).
Defined.

(** The stale widget shows two items of a list that is now empty: a
    refresh hides it and keeps both item nodes in the list container.  On
    the replanned widget a session switch changes the item nodes, and the
    root node is shown afterwards. *)
Lemma updateTodoDisplay_hidden_keeps_items_witness :
  display (domNode_style (exec (@updateTodoDisplay plain_host) stale_widget))
    = "none" ∧
  todoListContainer (exec (@updateTodoDisplay plain_host) stale_widget)
    = todoListContainer stale_widget ∧
  length (childNodes (todoListContainer stale_widget)) = 2 ∧
  display
    (domNode_style
       (exec (@perform plain_host (HostUpdateSessionId (Some "S1")))
          replanned_widget))
    = "block".
Proof.
  destruct (@updateTodoDisplay_hidden_keeps_items plain_host stale_widget)
    as (Hhide & Hkeep & _).
  assert (Hempty :
    ∃ sessionId, _currentSessionId stale_widget = Some sessionId ∧
                 getTodoList (chatTodoListService stale_widget) sessionId = []).
  { exists "S1". split; vm_compute; reflexivity. }
  pose proof (Hhide (or_intror Hempty)) as Hd.
  split; [exact Hd|]. split; [exact (Hkeep Hd)|]. split; [reflexivity|].
  destruct (@updateTodoDisplay_hidden_keeps_items plain_host replanned_widget)
    as (_ & _ & Honly).
  apply (Honly (HostUpdateSessionId (Some "S1"))).
  intros E. apply (f_equal length) in E. vm_compute in E. discriminate.
Defined.

(** ** Further properties of the widget *)

Section Lifecycle.
Context `{Host}.

(** *** Helpers *)

Lemma updateSessionId_exec sessionId this :
  exec (updateSessionId sessionId) this
    = exec updateTodoDisplay (set__currentSessionId sessionId this).
Proof. reflexivity. Qed.

(** A refresh that finds a non-empty list, in closed form. *)
Lemma updateTodoDisplay_shown this :
  ToBoolean (_currentSessionId this) = true →
  getTodoList (chatTodoListService this) (default "" (_currentSessionId this))
    ≠ [] →
  exec updateTodoDisplay this =
    exec fire
      (set_clearButtonContainer
         (style_display_set "flex" (clearButtonContainer this))
         (set_domNode_style (set_display "block" (domNode_style this))
            (set_todoListContainer
               (set_childNodes
                  (imap (λ k todo, ElementNode (todo_item k todo))
                     (getTodoList (chatTodoListService this)
                        (default "" (_currentSessionId this))))
                  (todoListContainer this))
               (set_expandoElement
                  (with_querySelector ".todo-list-title"
                     (textContent_set (localize "chat.todoList.title" "Tasks"))
                     (expandoElement this)) this)))).
Proof.
  intros Hs Hl. rewrite updateTodoDisplay_nonempty by done. cbv zeta.
  rewrite renderTodoList_exec. by destruct this.
Qed.

Lemma imap_nonempty {A B} (f : nat → A → B) (l : list A) :
  l ≠ [] → imap f l ≠ [].
Proof. by destruct l. Qed.

Lemma attributes_with_querySelector selector update e :
  attributes (with_querySelector selector update e) = attributes e.
Proof.
  unfold with_querySelector. destruct e as [cl a st ns].
  rewrite querySelector_update_unfold.
  by destruct (querySelector_update_list selector update ns).
Qed.

(** What a refresh keeps, whatever branch it takes. *)
Lemma updateTodoDisplay_kept this :
  let after := exec updateTodoDisplay this in
  _currentSessionId after = _currentSessionId this ∧
  chatTodoListService after = chatTodoListService this ∧
  _isExpanded after = _isExpanded this ∧
  attributes (expandoElement after) = attributes (expandoElement this) ∧
  style (todoListContainer after) = style (todoListContainer this) ∧
  _onDidChangeHeight after
    = (_onDidChangeHeight this ++ [domNode after])%list.
Proof.
  cbv zeta. destruct (ToBoolean (_currentSessionId this)) eqn:Hs.
  - destruct (decide (getTodoList (chatTodoListService this)
                        (default "" (_currentSessionId this)) = [])) as [Hl|Hl].
    + rewrite updateTodoDisplay_empty by done. by destruct this.
    + rewrite updateTodoDisplay_shown by done.
      destruct this as [ds log ex ee [cl a st ns] cb sid svc]. cbn.
      repeat split; try done. apply attributes_with_querySelector.
  - rewrite updateTodoDisplay_no_session by done. by destruct this.
Qed.

(** *** Construction *)

(** X1: whatever service it is given, a new widget is hidden and measures
    0, is expanded with the header announcing it, has an empty list body,
    no session and no emission, keeps the service as it received it, and
    builds a DOM that does not depend on the service.  Its clear-control
    container has no display of its own yet. *)
Theorem createChatTodoWidget_initial
    (service : gmap string (list IChatTodo)) :
  let this := createChatTodoWidget service in
  (display (domNode_style this) = "none" ∧ eval height this = 0%Z) ∧
  (_isExpanded this = true ∧
   getAttribute "aria-expanded" (expandoElement this) = Some "true" ∧
   getAttribute "role" (expandoElement this) = Some "button" ∧
   getAttribute "tabindex" (expandoElement this) = Some "0" ∧
   display (style (todoListContainer this)) = "block") ∧
  (childNodes (todoListContainer this) = [] ∧
   _currentSessionId this = None ∧
   _onDidChangeHeight this = [] ∧
   chatTodoListService this = service) ∧
  (display (style (clearButtonContainer this)) = "" ∧
   childNodes (clearButtonContainer this) = [ElementNode clearButton_element]) ∧
  ∀ other : gmap string (list IChatTodo),
    domNode (createChatTodoWidget other) = domNode this.
Proof. cbv zeta. repeat split. Qed.

(** *** Session switches and refreshes *)

(** X2: [updateSessionId] stores the identifier it is given, leaves the
    storage and the expanded flag alone, and emits exactly one height
    change, after the DOM has its final form; the root node is then shown
    exactly when the identifier is a non-empty string with a non-empty
    stored list. *)
Theorem updateSessionId_effect (sessionId : option string)
    (this : ChatTodoListWidget) :
  let after := exec (updateSessionId sessionId) this in
  _currentSessionId after = sessionId ∧
  chatTodoListService after = chatTodoListService this ∧
  _isExpanded after = _isExpanded this ∧
  _onDidChangeHeight after
    = (_onDidChangeHeight this ++ [domNode after])%list ∧
  (display (domNode_style after) = "block" ↔
     ∃ s, sessionId = Some s ∧ s ≠ "" ∧
          getTodoList (chatTodoListService this) s ≠ []) ∧
  (display (domNode_style after) = "block" ∨
   display (domNode_style after) = "none").
Proof.
  cbv zeta. rewrite updateSessionId_exec.
  destruct (updateTodoDisplay_kept (set__currentSessionId sessionId this))
    as (Hsid & Hsvc & Hex & _ & _ & Hlog). cbv zeta in *.
  rewrite Hsid, Hsvc, Hex, Hlog.
  split; [by destruct this|]. split; [by destruct this|].
  split; [by destruct this|]. split; [by destruct this|].
  destruct (updateTodoDisplay_outcome (set__currentSessionId sessionId this))
    as [(Hd & _ & Hwhy)|(Hd & Hs & Hl)]; cbv zeta in *; rewrite Hd.
  - split; [|by right]. split; [discriminate|].
    intros (s & -> & Hne & Hl). exfalso.
    destruct this; cbn in Hwhy. destruct Hwhy as [Hb|He]; [|done].
    apply String.eqb_neq in Hne. by rewrite Hne in Hb.
  - split; [|by left]. split; [|done]. intros _.
    apply ToBoolean_Some in Hs as (s & Hs & Hne).
    destruct this; cbn in *. subst sessionId. eauto.
Qed.

(** X3: switching to no session hides the widget whatever it showed: root
    node and clear control get display [none], the height is 0, one height
    change is emitted, and the item nodes rendered before stay in the list
    container. *)
Theorem updateSessionId_undefined_hides (this : ChatTodoListWidget) :
  let after := exec (updateSessionId None) this in
  display (domNode_style after) = "none" ∧
  display (style (clearButtonContainer after)) = "none" ∧
  eval height after = 0%Z ∧
  todoListContainer after = todoListContainer this ∧
  length (_onDidChangeHeight after) = S (length (_onDidChangeHeight this)).
Proof.
  cbv zeta. rewrite updateSessionId_exec, updateTodoDisplay_no_session
    by by destruct this.
  destruct this as [ds log ex ee tl [cl a st ns] sid svc]. cbn.
  repeat split. by rewrite length_app, Nat.add_1_r.
Qed.

(** X4: switching to a session with a non-empty identifier and a non-empty
    stored list shows the widget: root node [block], clear control [flex],
    the height is the host's measure of the root node, and the list
    container holds exactly the items of that list, numbered from 1,
    whatever it held before. *)
Theorem updateSessionId_shows_list (sessionId : string)
    (this : ChatTodoListWidget) :
  sessionId ≠ "" →
  getTodoList (chatTodoListService this) sessionId ≠ [] →
  let after := exec (updateSessionId (Some sessionId)) this in
  let todoList := getTodoList (chatTodoListService this) sessionId in
  display (domNode_style after) = "block" ∧
  display (style (clearButtonContainer after)) = "flex" ∧
  eval height after = offsetHeight (domNode after) ∧
  length (childNodes (todoListContainer after)) = length todoList ∧
  ∀ (i : nat) (todo : IChatTodo), todoList !! i = Some todo →
    ∃ item,
      childNodes (todoListContainer after) !! i = Some (ElementNode item) ∧
      textContent item = Number_toString (i + 1) +:+ ". " +:+ title todo.
Proof.
  intros Hne Hl. cbv zeta. rewrite updateSessionId_exec.
  rewrite updateTodoDisplay_shown; cycle 1.
  { destruct this; cbn. apply String.eqb_neq in Hne. by rewrite Hne. }
  { by destruct this. }
  destruct this as [ds log ex ee [cl a st ns] [cl' a' st' ns'] sid svc]. cbn.
  split; [done|]. split; [done|]. split; [done|].
  split; [apply length_imap|].
  intros i todo Hi. exists (todo_item i todo).
  rewrite list_lookup_imap. cbn in Hi. rewrite Hi.
  split; [done|]. apply textContent_todo_item.
Qed.

(** X5: a refresh right after a refresh changes nothing that can be seen:
    DOM, view state and storage are as the first one left them (only a
    second height change is emitted). *)
Theorem updateTodoDisplay_idempotent (this : ChatTodoListWidget) :
  observable (exec updateTodoDisplay (exec updateTodoDisplay this))
    = observable (exec updateTodoDisplay this) ∧
  length (_onDidChangeHeight (exec updateTodoDisplay (exec updateTodoDisplay this)))
    = S (S (length (_onDidChangeHeight this))).
Proof.
  destruct (ToBoolean (_currentSessionId this)) eqn:Hs.
  - destruct (decide (getTodoList (chatTodoListService this)
                        (default "" (_currentSessionId this)) = [])) as [Hl|Hl].
    + rewrite (updateTodoDisplay_empty this) by done.
      rewrite updateTodoDisplay_empty; cycle 1.
      { by destruct this. } { by destruct this. }
      destruct this as [ds log ex ee tl [cl a st ns] sid svc]. cbn.
      split; [done|]. rewrite !length_app. cbn. lia.
    + rewrite (updateTodoDisplay_shown this) by done.
      rewrite updateTodoDisplay_shown; cycle 1.
      { by destruct this. } { by destruct this. }
      destruct this as [ds log ex ee [cl a st ns] [cl' a' st' ns'] sid svc].
      cbn. split; [|rewrite !length_app; cbn; lia].
      unfold observable, domNode, headerContainer. cbn.
      rewrite with_querySelector_twice;
        [done | apply textContent_set_classList | apply textContent_set_twice].
  - rewrite (updateTodoDisplay_no_session this) by done.
    rewrite updateTodoDisplay_no_session by by destruct this.
    destruct this as [ds log ex ee tl [cl a st ns] sid svc]. cbn.
    split; [done|]. rewrite !length_app. cbn. lia.
Qed.

(** X6: a session switch, a refresh and a clear never expand or collapse
    the list: the expanded flag, the [aria-expanded] attribute and the
    display of the list body are what they were, on every state. *)
Theorem expand_state_survives_refresh (this : ChatTodoListWidget) :
  ∀ after : ChatTodoListWidget,
    after = exec updateTodoDisplay this ∨
    (∃ sessionId, after = exec (updateSessionId sessionId) this) ∨
    after = exec clearAllTodos this →
    _isExpanded after = _isExpanded this ∧
    getAttribute "aria-expanded" (expandoElement after)
      = getAttribute "aria-expanded" (expandoElement this) ∧
    display (style (todoListContainer after))
      = display (style (todoListContainer this)).
Proof.
  assert (Hrefresh : ∀ w,
    _isExpanded (exec updateTodoDisplay w) = _isExpanded w ∧
    getAttribute "aria-expanded" (expandoElement (exec updateTodoDisplay w))
      = getAttribute "aria-expanded" (expandoElement w) ∧
    display (style (todoListContainer (exec updateTodoDisplay w)))
      = display (style (todoListContainer w))).
  { intros w. destruct (updateTodoDisplay_kept w) as (_ & _ & Hex & Ha & Hst & _).
    cbv zeta in *. unfold getAttribute. by rewrite Hex, Ha, Hst. }
  intros after [->|[[sessionId ->]| ->]].
  - apply Hrefresh.
  - rewrite updateSessionId_exec.
    destruct (Hrefresh (set__currentSessionId sessionId this)) as (-> & -> & ->).
    by destruct this.
  - rewrite clearAllTodos_exec. destruct (ToBoolean _); [|done].
    match goal with
    | |- context [exec updateTodoDisplay ?w] =>
        destruct (Hrefresh w) as (-> & -> & ->)
    end.
    by destruct this.
Qed.

(** *** Clear all *)

(** X7: [clearAllTodos] touches the stored list of the current session
    only: the list of every other session is what it was.  It keeps the
    session identifier and the expanded flag, and it does not take the
    rendered item nodes out of the list container: they stay there,
    hidden with the widget. *)
Theorem clearAllTodos_other_sessions (this : ChatTodoListWidget) :
  let after := exec clearAllTodos this in
  (∀ other : string, _currentSessionId this ≠ Some other →
     getTodoList (chatTodoListService after) other
       = getTodoList (chatTodoListService this) other) ∧
  _currentSessionId after = _currentSessionId this ∧
  _isExpanded after = _isExpanded this ∧
  todoListContainer after = todoListContainer this.
Proof.
  cbv zeta. rewrite clearAllTodos_exec.
  destruct (ToBoolean (_currentSessionId this)) eqn:Hs; [|done].
  apply ToBoolean_Some in Hs as (s & Hsid & Hne). rewrite Hsid. cbn [default].
  rewrite updateTodoDisplay_empty; cycle 1.
  { destruct this; cbn in *. subst. cbn. apply String.eqb_neq in Hne.
    by rewrite Hne. }
  { destruct this; cbn in *. subst. cbn. apply getTodoList_setTodoList_eq. }
  destruct this as [ds log ex ee tl [cl a st ns] sid svc]. cbn in *.
  subst sid. repeat split.
  intros other Hother. unfold getTodoList, setTodoList.
  rewrite lookup_insert_ne; [done|congruence].
Qed.

(** *** Header events *)

(** X8: a key pressed on the header changes the widget exactly when the
    key is Enter or the space character, and then it does what a click
    does; every other key leaves the widget as it is. *)
Theorem keydown_toggles_iff (key : string) (this : ChatTodoListWidget) :
  (key = "Enter" ∨ key = " " →
   exec (perform (ExpandoKeydown key)) this = exec (perform ExpandoClick) this) ∧
  (exec (perform (ExpandoKeydown key)) this ≠ this ↔
   key = "Enter" ∨ key = " ").
Proof.
  cbn [perform].
  destruct (String.eqb_spec key "Enter") as [->|HE]; cbn [orb].
  - split; [done|]. split; [auto|]. intros _ E.
    apply (f_equal _isExpanded) in E. rewrite toggleExpanded_flag in E.
    by destruct (_isExpanded this).
  - destruct (String.eqb_spec key " ") as [->|HS].
    + split; [done|]. split; [auto|]. intros _ E.
      apply (f_equal _isExpanded) in E. rewrite toggleExpanded_flag in E.
      by destruct (_isExpanded this).
    + split; [by intros [|]|]. split; [done|]. by intros [|].
Qed.

(** X9: toggles never show or hide the widget and never touch its data:
    after any number of them the root node's style, the clear control, the
    item nodes, the session identifier and the storage are what they were;
    each of them has emitted one height change, also while the widget is
    hidden, and a hidden widget still measures 0. *)
Theorem toggleExpanded_iter_frame (n : nat) (this : ChatTodoListWidget) :
  let after := Nat.iter n (exec toggleExpanded) this in
  domNode_style after = domNode_style this ∧
  clearButtonContainer after = clearButtonContainer this ∧
  childNodes (todoListContainer after) = childNodes (todoListContainer this) ∧
  _currentSessionId after = _currentSessionId this ∧
  chatTodoListService after = chatTodoListService this ∧
  length (_onDidChangeHeight after) = length (_onDidChangeHeight this) + n ∧
  (display (domNode_style this) = "none" → eval height after = 0%Z).
Proof.
  cbv zeta.
  assert (Hframe :
    domNode_style (Nat.iter n (exec toggleExpanded) this) = domNode_style this ∧
    clearButtonContainer (Nat.iter n (exec toggleExpanded) this)
      = clearButtonContainer this ∧
    childNodes (todoListContainer (Nat.iter n (exec toggleExpanded) this))
      = childNodes (todoListContainer this) ∧
    _currentSessionId (Nat.iter n (exec toggleExpanded) this)
      = _currentSessionId this ∧
    chatTodoListService (Nat.iter n (exec toggleExpanded) this)
      = chatTodoListService this ∧
    length (_onDidChangeHeight (Nat.iter n (exec toggleExpanded) this))
      = length (_onDidChangeHeight this) + n).
  { induction n as [|n (Hs & Hb & Hc & Hi & Hv & Hl)];
      [by rewrite Nat.add_0_r|].
    rewrite Nat.iter_succ.
    generalize dependent (Nat.iter n (exec toggleExpanded) this).
    intros w Hs Hb Hc Hi Hv Hl. rewrite toggleExpanded_exec.
    rewrite <- Hs, <- Hb, <- Hc, <- Hi, <- Hv, Nat.add_succ_r, <- Hl.
    destruct w as [ds log ex ee [cl a st ns] cb sid svc]. cbn.
    repeat split; try done. rewrite length_app. cbn. lia. }
  destruct Hframe as (Hs & Hb & Hc & Hi & Hv & Hl).
  repeat split; try done.
  intros Hd. unfold eval, height, gets, mbind, M_bind, mret, M_ret.
  cbn [fst snd]. by rewrite Hs, Hd.
Qed.

(** *** Status presentation and item labels *)

(** X10: glyph and colour always go together and each is tied to one
    status: the check glyph and the green token are given for
    [completed] and for nothing else, the record glyph and the blue token
    for [in-progress] and for nothing else. *)
Theorem status_glyph_colour_agree (status : string) :
  (getStatusIconClass status = "codicon-check" ↔ status = "completed") ∧
  (getStatusIconColor status = "var(--vscode-charts-green)"
     ↔ status = "completed") ∧
  (getStatusIconClass status = "codicon-record" ↔ status = "in-progress") ∧
  (getStatusIconColor status = "var(--vscode-charts-blue)"
     ↔ status = "in-progress").
Proof.
  unfold getStatusIconClass, getStatusIconColor.
  destruct (String.eqb_spec status "completed") as [->|Hc].
  { by repeat split. }
  destruct (String.eqb_spec status "in-progress") as [->|Hp].
  { by repeat split. }
  destruct (String.eqb_spec status "not-started") as [->|Hn];
    by repeat split.
Qed.

(** X11: rendering a list that extends another one leaves the items of the
    shorter list in front, unchanged, and adds one item per further
    record; rendering the empty list leaves the container without
    children. *)
Theorem renderTodoList_prefix (todoList more : list IChatTodo)
    (this : ChatTodoListWidget) :
  childNodes (todoListContainer (exec (renderTodoList []) this)) = [] ∧
  ∃ added : list Node,
    childNodes (todoListContainer (exec (renderTodoList (todoList ++ more)) this))
      = (childNodes (todoListContainer (exec (renderTodoList todoList) this))
           ++ added)%list ∧
    length added = length more.
Proof.
  rewrite !renderTodoList_exec.
  destruct this as [ds log ex ee [cl a st ns] cb sid svc]. cbn.
  split; [done|]. rewrite imap_app. eexists. split; [done|].
  apply length_imap.
Qed.

Lemma append_no_dot_cancel (a b c d : string) :
  no_dot a = true → no_dot b = true →
  a +:+ String "." c = b +:+ String "." d → a = b.
Proof.
  revert b. induction a as [|x a IH]; intros [|y b] Ha Hb E.
  - done.
  - cbn in Hb. change (String "." c = String y (b +:+ String "." d)) in E.
    injection E as <- _. by rewrite Ascii.eqb_refl in Hb.
  - cbn in Ha. change (String x (a +:+ String "." c) = String "." d) in E.
    injection E as -> _. by rewrite Ascii.eqb_refl in Ha.
  - change (String x (a +:+ String "." c) = String y (b +:+ String "." d)) in E.
    injection E as -> E. cbn in Ha, Hb.
    destruct (Ascii.eqb y "."); [done|]. f_equal. by apply IH.
Qed.

Lemma string_of_uint_no_dot (d : Decimal.uint) :
  no_dot (NilEmpty.string_of_uint d) = true.
Proof. induction d; cbn; auto. Qed.

Lemma Number_toString_inj (m n : nat) :
  Number_toString m = Number_toString n → m = n.
Proof.
  unfold Number_toString. intros E.
  apply (f_equal NilEmpty.uint_of_string) in E.
  rewrite !NilEmpty.usu in E. injection E as E.
  apply (f_equal Nat.of_uint) in E. by rewrite !Unsigned.of_to in E.
Qed.

(** X12: the labels of a rendered list are pairwise distinct: two item
    nodes at different positions never show the same text, also when
    their records have the same title. *)
Theorem renderTodoList_labels_distinct (todoList : list IChatTodo)
    (this : ChatTodoListWidget) (i j : nat) (a b : HTMLElement) :
  let items :=
    childNodes (todoListContainer (exec (renderTodoList todoList) this)) in
  items !! i = Some (ElementNode a) →
  items !! j = Some (ElementNode b) →
  textContent a = textContent b →
  i = j.
Proof.
  cbv zeta. rewrite renderTodoList_exec.
  destruct this as [ds log ex ee [cl at_ st ns] cb sid svc]. cbn.
  rewrite !list_lookup_imap.
  destruct (todoList !! i) as [ti|]; [|done].
  destruct (todoList !! j) as [tj|]; [|done].
  cbn. intros [= <-] [= <-]. rewrite !textContent_todo_item. intros E.
  apply append_no_dot_cancel in E; try apply string_of_uint_no_dot.
  apply Number_toString_inj in E. lia.
Qed.

(** *** What holds in every state the widget can reach *)

Lemma toggleExpanded_log this :
  _onDidChangeHeight (exec toggleExpanded this)
    = (_onDidChangeHeight this ++ [domNode (exec toggleExpanded this)])%list.
Proof.
  rewrite toggleExpanded_exec.
  by destruct this as [ds log ex ee [cl a st ns] cb sid svc].
Qed.

Lemma toggleExpanded_children this :
  childNodes (todoListContainer (exec toggleExpanded this))
    = childNodes (todoListContainer this).
Proof.
  rewrite toggleExpanded_exec.
  by destruct this as [ds log ex ee [cl a st ns] cb sid svc].
Qed.

(** Every action is a no-op, a write to the storage, a toggle, or a
    refresh of a widget that differs in session and storage at most. *)
Lemma perform_cases (a : Action) (this : ChatTodoListWidget) :
  exec (perform a) this = this ∨
  (∃ storage, exec (perform a) this = set_chatTodoListService storage this) ∨
  exec (perform a) this = exec toggleExpanded this ∨
  (∃ sessionId storage,
     exec (perform a) this
       = exec updateTodoDisplay
           (set_chatTodoListService storage
              (set__currentSessionId sessionId this))).
Proof.
  destruct a as [sessionId| |key| |sessionId todoList]; cbn [perform].
  - right; right; right. exists sessionId, (chatTodoListService this).
    rewrite updateSessionId_exec. by destruct this.
  - auto.
  - destruct (_ || _); auto.
  - rewrite clearAllTodos_exec. destruct (ToBoolean _); [|auto].
    right; right; right. eexists (_currentSessionId this), _. by destruct this.
  - right; left. eexists. reflexivity.
Qed.

(** X13: in every state the widget can reach, the root node's display is
    [none] or [block]; it is [block] exactly when the clear control's is
    [flex]; a shown widget has at least one item node; and a widget whose
    root is [none] measures 0. *)
Theorem reachable_visibility (this : ChatTodoListWidget) :
  reachable this →
  (display (domNode_style this) = "none" ∨
   display (domNode_style this) = "block") ∧
  (display (domNode_style this) = "block"
     ↔ display (style (clearButtonContainer this)) = "flex") ∧
  (display (domNode_style this) = "block" →
   childNodes (todoListContainer this) ≠ []) ∧
  (display (domNode_style this) = "none" → eval height this = 0%Z).
Proof.
  intros Hr.
  enough ((display (domNode_style this) = "none" ∨
           display (domNode_style this) = "block") ∧
          (display (domNode_style this) = "block"
             ↔ display (style (clearButtonContainer this)) = "flex") ∧
          (display (domNode_style this) = "block" →
           childNodes (todoListContainer this) ≠ [])) as (H1 & H2 & H3).
  { repeat split; try done; try apply H2.
    intros Hd. unfold eval, height, gets, mbind, M_bind, mret, M_ret.
    cbn [fst snd]. by rewrite Hd. }
  assert (Hrefresh : ∀ w,
    (display (domNode_style (exec updateTodoDisplay w)) = "none" ∨
     display (domNode_style (exec updateTodoDisplay w)) = "block") ∧
    (display (domNode_style (exec updateTodoDisplay w)) = "block"
       ↔ display (style (clearButtonContainer (exec updateTodoDisplay w)))
           = "flex") ∧
    (display (domNode_style (exec updateTodoDisplay w)) = "block" →
     childNodes (todoListContainer (exec updateTodoDisplay w)) ≠ [])).
  { intros w. destruct (ToBoolean (_currentSessionId w)) eqn:Hs.
    - destruct (decide (getTodoList (chatTodoListService w)
                          (default "" (_currentSessionId w)) = [])) as [Hl|Hl].
      + rewrite updateTodoDisplay_empty by done.
        destruct w as [ds log ex ee tl [cl a st ns] sid svc]. cbn.
        split; [auto|]. split; [done|]. discriminate.
      + rewrite updateTodoDisplay_shown by done.
        destruct w as [ds log ex ee [cl a st ns] [cl' a' st' ns'] sid svc].
        cbn. split; [auto|]. split; [done|]. intros _.
        by apply imap_nonempty.
    - rewrite updateTodoDisplay_no_session by done.
      destruct w as [ds log ex ee tl [cl a st ns] sid svc]. cbn.
      split; [auto|]. split; [done|]. discriminate. }
  induction Hr as [service|this a _ IH].
  - cbn. split; [auto|]. split; [done|]. discriminate.
  - destruct (perform_cases a this)
      as [->|[[storage ->]|[->|(sessionId & storage & ->)]]].
    + done.
    + by destruct this.
    + destruct (toggleExpanded_kept this) as (-> & -> & _).
      by rewrite toggleExpanded_children.
    + apply Hrefresh.
Qed.

(** X14: in every state the widget can reach, the listeners of the height
    change have seen the DOM as it is now: the root node shown to them at
    the last emission is the current one, and as long as nothing was
    emitted the DOM is still the one the constructor built. *)
Theorem reachable_last_emission (this : ChatTodoListWidget) :
  reachable this →
  last (_onDidChangeHeight this) = Some (domNode this) ∨
  (_onDidChangeHeight this = [] ∧
   ∀ service, domNode this = domNode (createChatTodoWidget service)).
Proof.
  induction 1 as [service|this a _ IH].
  - right. by split.
  - destruct (perform_cases a this)
      as [->|[[storage ->]|[->|(sessionId & storage & ->)]]].
    + done.
    + by destruct this.
    + left. rewrite toggleExpanded_log. apply last_snoc.
    + left.
      match goal with
      | |- context [exec updateTodoDisplay ?w] =>
          destruct (updateTodoDisplay_kept w) as (_ & _ & _ & _ & _ & ->)
      end.
      apply last_snoc.
Qed.

(** X15: in every state the widget can reach, the header tells the
    expanded flag: [aria-expanded] spells it, the icon carries the down
    chevron when expanded and the right chevron when collapsed, and the
    list body is shown exactly when the flag is set.  The header keeps its
    button role, its tab stop and its localized title. *)
Theorem reachable_header (this : ChatTodoListWidget) :
  reachable this →
  getAttribute "aria-expanded" (expandoElement this)
    = Some (Boolean_toString (_isExpanded this)) ∧
  list_body_visible this = _isExpanded this ∧
  (∃ expandIcon,
     querySelector ".expand-icon" (expandoElement this) = Some expandIcon ∧
     classList expandIcon
       = ["expand-icon"; "codicon";
          if _isExpanded this then "codicon-chevron-down"
          else "codicon-chevron-right"]) ∧
  getAttribute "role" (expandoElement this) = Some "button" ∧
  getAttribute "tabindex" (expandoElement this) = Some "0" ∧
  (∃ titleElement,
     querySelector ".todo-list-title" (expandoElement this) = Some titleElement ∧
     textContent titleElement = localize "chat.todoList.title" "Tasks").
Proof.
  intros Hr. apply reachable_consistent in Hr as [He Hd].
  unfold list_body_visible. rewrite He, Hd.
  split; [done|]. split; [by destruct (_isExpanded this)|].
  split; [eexists; split; reflexivity|]. split; [done|]. split; [done|].
  unfold expando_shape, textContent_set.
  destruct (String.eqb_spec (localize "chat.todoList.title" "Tasks") "")
    as [E|E].
  - eexists. split; [by destruct (_isExpanded this)|]. by rewrite E.
  - eexists. split; [by destruct (_isExpanded this)|]. cbn.
    apply append_empty_r.
Qed.

(** X16: in every state the widget can reach, shown or hidden, the list
    container holds item nodes only and they are numbered from 1 without a
    gap: the child at position [i] is a todo item whose text starts with
    [<i+1>. ]. *)
Theorem reachable_items_numbered (this : ChatTodoListWidget) :
  reachable this →
  ∀ (i : nat) (node : Node),
    childNodes (todoListContainer this) !! i = Some node →
    ∃ item text,
      node = ElementNode item ∧
      classList item = ["todo-item"] ∧
      textContent item = Number_toString (i + 1) +:+ ". " +:+ text.
Proof.
  induction 1 as [service|this a _ IH].
  - intros i node Hi. cbn in Hi. by rewrite lookup_nil in Hi.
  - destruct (perform_cases a this)
      as [->|[[storage ->]|[->|(sessionId & storage & ->)]]].
    + done.
    + by destruct this.
    + by rewrite toggleExpanded_children.
    + match goal with
      | |- context [exec updateTodoDisplay ?w] =>
          destruct (updateTodoDisplay_outcome w) as [(_ & -> & _)|(_ & Hs & Hl)];
            [by destruct this | rewrite updateTodoDisplay_shown by done]
      end.
      destruct this as [ds log ex ee [cl at_ st ns] cb sid svc]. cbn.
      intros i node. rewrite list_lookup_imap.
      destruct (_ !! i) as [todo|]; [|done]. intros [= <-].
      exists (todo_item i todo), (title todo).
      split; [done|]. split; [done|]. apply textContent_todo_item.
Qed.

(** *** Sequences of operations *)

(** X17: a cleared session stays cleared across session switches: after
    [clearAllTodos] on a session with a non-empty identifier, switching to
    any other session and back hides the widget again and finds the empty
    list. *)
Theorem cleared_session_stays_hidden (sessionId : string)
    (other : option string) (this : ChatTodoListWidget) :
  _currentSessionId this = Some sessionId →
  sessionId ≠ "" →
  let back :=
    exec (updateSessionId (Some sessionId))
      (exec (updateSessionId other) (exec clearAllTodos this)) in
  display (domNode_style back) = "none" ∧
  getTodoList (chatTodoListService back) sessionId = [] ∧
  eval height back = 0%Z.
Proof.
  intros Hsid Hne. cbv zeta.
  assert (Hstore :
    chatTodoListService (exec (updateSessionId other) (exec clearAllTodos this))
      = <[sessionId := []]> (chatTodoListService this)).
  { rewrite updateSessionId_exec.
    match goal with
    | |- context [exec updateTodoDisplay ?w] =>
        destruct (updateTodoDisplay_kept w) as (_ & -> & _)
    end.
    rewrite clearAllTodos_exec, Hsid. cbn [ToBoolean default].
    apply String.eqb_neq in Hne. rewrite Hne. cbn [negb].
    match goal with
    | |- context [exec updateTodoDisplay ?w] =>
        destruct (updateTodoDisplay_kept w) as (_ & Hk & _)
    end.
    cbn in Hk |- *. rewrite Hk. by destruct this. }
  generalize dependent
    (exec (updateSessionId other) (exec clearAllTodos this)).
  intros w Hstore. rewrite updateSessionId_exec.
  rewrite updateTodoDisplay_empty; cycle 1.
  { destruct w; cbn. apply String.eqb_neq in Hne. by rewrite Hne. }
  { destruct w; cbn in *. subst. unfold getTodoList.
    by rewrite lookup_insert_eq. }
  destruct w as [ds log ex ee tl [cl a st ns] sid svc]. cbn in *. subst svc.
  split; [done|]. split; [|done]. unfold getTodoList.
  by rewrite lookup_insert_eq.
Qed.

(** What a refresh may change of the DOM parts. *)
Lemma updateTodoDisplay_changes this :
  let after := exec updateTodoDisplay this in
  ∃ root_display clear_display children,
    domNode_style after = set_display root_display (domNode_style this) ∧
    clearButtonContainer after
      = style_display_set clear_display (clearButtonContainer this) ∧
    todoListContainer after = set_childNodes children (todoListContainer this) ∧
    (expandoElement after = expandoElement this ∨
     expandoElement after
       = with_querySelector ".todo-list-title"
           (textContent_set (localize "chat.todoList.title" "Tasks"))
           (expandoElement this)).
Proof.
  cbv zeta. destruct (ToBoolean (_currentSessionId this)) eqn:Hs.
  - destruct (decide (getTodoList (chatTodoListService this)
                        (default "" (_currentSessionId this)) = [])) as [Hl|Hl].
    + rewrite updateTodoDisplay_empty by done.
      destruct this as [ds log ex ee [cl a st ns] cb sid svc]. cbn.
      exists "none", "none", ns. auto.
    + rewrite updateTodoDisplay_shown by done.
      destruct this as [ds log ex ee [cl a st ns] cb sid svc]. cbn.
      eexists "block", "flex", _. auto.
  - rewrite updateTodoDisplay_no_session by done.
    destruct this as [ds log ex ee [cl a st ns] cb sid svc]. cbn.
    exists "none", "none", ns. auto.
Qed.

(** X18: switching away from a session that shows todos and back to it
    restores what was on screen: DOM, view state and storage are the ones
    the first switch to that session left. *)
Theorem session_switch_round_trip (sessionId : string)
    (other : option string) (this : ChatTodoListWidget) :
  sessionId ≠ "" →
  getTodoList (chatTodoListService this) sessionId ≠ [] →
  let shown := exec (updateSessionId (Some sessionId)) this in
  observable
    (exec (updateSessionId (Some sessionId))
       (exec (updateSessionId other) shown))
    = observable shown.
Proof.
  intros Hne Hl. cbv zeta.
  assert (Htrue : ToBoolean (Some sessionId) = true).
  { cbn. apply String.eqb_neq in Hne. by rewrite Hne. }
  rewrite !updateSessionId_exec.
  rewrite (updateTodoDisplay_shown (set__currentSessionId (Some sessionId) this));
    cycle 1.
  { by destruct this. } { by destruct this. }
  match goal with
  | |- context [exec updateTodoDisplay (set__currentSessionId other ?w)] =>
      set (shown := w);
      destruct (updateTodoDisplay_changes (set__currentSessionId other shown))
        as (rd & cd & cs & Hd & Hc & Hi & He);
      destruct (updateTodoDisplay_kept (set__currentSessionId other shown))
        as (_ & Hv & Hx & _)
  end.
  cbv zeta in *.
  generalize dependent
    (exec updateTodoDisplay (set__currentSessionId other shown)).
  intros away Hd Hc Hi He Hv Hx.
  rewrite updateTodoDisplay_shown; cycle 1.
  { by destruct away. }
  { destruct away; cbn in *. subst. by destruct this. }
  destruct away as [ds2 log2 ex2 ee2 tl2 cb2 sid2 svc2]. cbn in *.
  destruct this as [ds log ex ee [cl a st ns] [cl' a' st' ns'] sid svc].
  cbn in *. subst. unfold observable, domNode, headerContainer. cbn.
  destruct He as [->| ->]; rewrite !with_querySelector_twice;
    first [done | apply textContent_set_classList | apply textContent_set_twice].
Qed.
End Lifecycle.

(** ** The further properties at the scenario *)

(** Switching a new widget to session S1 shows its two todos. *)
Lemma updateSessionId_shows_list_witness :
  display (domNode_style scenario_widget) = "block" ∧
  length (childNodes (todoListContainer scenario_widget)) = 2.
Proof.
  assert (Hne : "S1" ≠ "") by discriminate.
  assert (Hl : getTodoList (chatTodoListService new_widget) "S1" ≠ [])
    by (vm_compute; discriminate).
  destruct (@updateSessionId_shows_list plain_host "S1" new_widget Hne Hl)
    as (Hd & _ & _ & Hlen & _).
  exact (conj Hd Hlen).
Defined.

(** A collapsed widget is still collapsed after a session switch. *)
Lemma expand_state_survives_refresh_witness :
  _isExpanded
    (exec (@updateSessionId plain_host None) (exec toggleExpanded scenario_widget))
  = false.
Proof.
  apply (@expand_state_survives_refresh plain_host
           (exec toggleExpanded scenario_widget)
           (exec (@updateSessionId plain_host None)
              (exec toggleExpanded scenario_widget))).
  right; left. exists None. reflexivity.
Defined.

(** Clearing session S1 empties its list and leaves the todo stored for
    session S2 alone. *)
Lemma clearAllTodos_other_sessions_witness :
  getTodoList (chatTodoListService two_session_widget) "S1" = scenario_todos ∧
  getTodoList
    (chatTodoListService (exec (@clearAllTodos plain_host) two_session_widget))
    "S1" = [] ∧
  getTodoList
    (chatTodoListService (exec (@clearAllTodos plain_host) two_session_widget))
    "S2" = [mkTodo "Ship" "not-started"].
Proof.
  split; [vm_compute; reflexivity|]. split; [vm_compute; reflexivity|].
  assert (Hother : _currentSessionId two_session_widget ≠ Some "S2")
    by (vm_compute; discriminate).
  rewrite (proj1 (@clearAllTodos_other_sessions plain_host two_session_widget)
             "S2" Hother).
  vm_compute. reflexivity.
Defined.

(** The Enter key collapses the scenario's widget as a click does. *)
Lemma keydown_toggles_iff_witness :
  exec (@perform plain_host (ExpandoKeydown "Enter")) scenario_widget
  = exec (@perform plain_host ExpandoClick) scenario_widget.
Proof.
  apply (@keydown_toggles_iff plain_host "Enter" scenario_widget).
  left. reflexivity.
Defined.

(** Three toggles of a new, hidden widget leave its height at 0. *)
Lemma toggleExpanded_iter_frame_witness :
  eval (@height plain_host) (Nat.iter 3 (exec toggleExpanded) new_widget) = 0%Z.
Proof.
  apply (@toggleExpanded_iter_frame plain_host 3 new_widget). reflexivity.
Defined.

(** Two records with the same title: the item at position 1 shares its
    text with no item at another position. *)
Lemma renderTodoList_labels_distinct_witness :
  childNodes
    (todoListContainer
       (exec (@renderTodoList plain_host
                [mkTodo "Review" "completed"; mkTodo "Review" "completed"])
          new_widget)) !! 1
    = Some (ElementNode (todo_item 1 (mkTodo "Review" "completed"))) ∧
  1 = 1.
Proof.
  assert (Hitem :
    childNodes
      (todoListContainer
         (exec (@renderTodoList plain_host
                  [mkTodo "Review" "completed"; mkTodo "Review" "completed"])
            new_widget)) !! 1
    = Some (ElementNode (todo_item 1 (mkTodo "Review" "completed"))))
    by reflexivity.
  split; [exact Hitem|].
  exact (@renderTodoList_labels_distinct plain_host
           [mkTodo "Review" "completed"; mkTodo "Review" "completed"]
           new_widget 1 1 _ _ Hitem Hitem eq_refl).
Defined.

(** The scenario's widget is shown, with clear control and items. *)
Lemma reachable_visibility_witness :
  display (style (clearButtonContainer scenario_widget)) = "flex" ∧
  childNodes (todoListContainer scenario_widget) ≠ [].
Proof.
  destruct (@reachable_visibility plain_host scenario_widget
              scenario_widget_reachable) as (_ & Hclear & Hitems & _).
  split; [apply Hclear; reflexivity | apply Hitems; reflexivity].
Defined.

(** The listeners have seen the scenario's DOM. *)
Lemma reachable_last_emission_witness :
  last (_onDidChangeHeight scenario_widget) = Some (domNode scenario_widget) ∨
  (_onDidChangeHeight scenario_widget = [] ∧
   ∀ service,
     domNode scenario_widget = domNode (@createChatTodoWidget plain_host service)).
Proof.
  exact (@reachable_last_emission plain_host scenario_widget
           scenario_widget_reachable).
Defined.

(** The header of the scenario's widget announces that it is expanded. *)
Lemma reachable_header_witness :
  getAttribute "aria-expanded" (expandoElement scenario_widget) = Some "true".
Proof.
  exact (proj1 (@reachable_header plain_host scenario_widget
                  scenario_widget_reachable)).
Defined.

(** The second child of the scenario's list container is item number 2. *)
Lemma reachable_items_numbered_witness :
  ∃ item text,
    ElementNode (todo_item 1 (mkTodo "Review" "in-progress")) = ElementNode item ∧
    classList item = ["todo-item"] ∧
    textContent item = Number_toString (1 + 1) +:+ ". " +:+ text.
Proof.
  exact (@reachable_items_numbered plain_host scenario_widget
           scenario_widget_reachable 1 _ eq_refl).
Defined.

(** Session S1, once cleared, is hidden when the host comes back to it. *)
Lemma cleared_session_stays_hidden_witness :
  display
    (domNode_style
       (exec (@updateSessionId plain_host (Some "S1"))
          (exec (@updateSessionId plain_host None)
             (exec (@clearAllTodos plain_host) scenario_widget))))
  = "none".
Proof.
  assert (Hne : "S1" ≠ "") by discriminate.
  exact (proj1 (@cleared_session_stays_hidden plain_host "S1" None
                  scenario_widget eq_refl Hne)).
Defined.

(** Leaving session S1 and coming back shows the scenario again. *)
Lemma session_switch_round_trip_witness :
  observable
    (exec (@updateSessionId plain_host (Some "S1"))
       (exec (@updateSessionId plain_host None) scenario_widget))
  = observable scenario_widget.
Proof.
  assert (Hne : "S1" ≠ "") by discriminate.
  assert (Hl : getTodoList (chatTodoListService new_widget) "S1" ≠ [])
    by (vm_compute; discriminate).
  exact (@session_switch_round_trip plain_host "S1" None new_widget Hne Hl).
Defined.
